(** * Markdown export servers: the line-oriented markdown-to-HTML renderer
      and the request guard of the three conversion handlers.

    The development embeds [ExportAPIHandler.markdown_to_html] of
    [export-api-v2.py] and the [do_POST] methods of [export-api-v2.py],
    [export-api.py] and [download-server.py].

    A Python [str] is a sequence of Unicode code points; it is modelled as a
    list of code points, so that [str.strip] sees exactly the characters
    Python treats as white space. *)

From Stdlib Require Import NArith ZArith List String Ascii Bool Lia.
From stdpp Require Import gmap.
Import ListNotations.

Local Open Scope N_scope.

(** ** Python strings *)

Module PyStr.

(** A code point, and a string of them. *)
Abbreviation char := N (only parsing).
Abbreviation str := (list N) (only parsing).

(** An ASCII literal of the source, as code points. *)
Definition lit (s : string) : str := map N_of_ascii (list_ascii_of_string s).

Definition LF : char := 10.
Definition dq : str := [34].

(** [str.isspace] for one code point (CPython's [_PyUnicode_IsWhitespace]). *)
Definition isspace (c : char) : bool :=
  ((9 <=? c) && (c <=? 13)) || ((28 <=? c) && (c <=? 32))
  || (c =? 133) || (c =? 160) || (c =? 5760)
  || ((8192 <=? c) && (c <=? 8202))
  || (c =? 8232) || (c =? 8233) || (c =? 8239) || (c =? 8287) || (c =? 12288).

(** [s.replace(old, new)] for a one-character [old]. *)
Definition replace (old : char) (new : str) (s : str) : str :=
  flat_map (fun c => if c =? old then new else [c]) s.

(** [s.split(sep)] for a one-character [sep]: empty pieces are kept, and the
    result is never empty. *)
Fixpoint split (sep : char) (s : str) : list str :=
  match s with
  | [] => [[]]
  | c :: t =>
      if c =? sep then [] :: split sep t
      else match split sep t with
           | l :: ls => (c :: l) :: ls
           | [] => [[c]]
           end
  end.

(** [sep.join(ls)]. *)
Fixpoint join (sep : str) (ls : list str) : str :=
  match ls with
  | [] => []
  | l :: ls' =>
      match ls' with
      | [] => l
      | _ :: _ => l ++ sep ++ join sep ls'
      end
  end.

(** [s.startswith(p)]. *)
Fixpoint startswith (p s : str) : bool :=
  match p, s with
  | [], _ => true
  | _ :: _, [] => false
  | x :: p', y :: s' => (x =? y) && startswith p' s'
  end.

(** [n in h] (substring test). *)
Fixpoint contains (n h : str) : bool :=
  startswith n h ||
  match h with
  | [] => false
  | _ :: h' => contains n h'
  end.

(** [s[k:]]. *)
Definition slice_from (k : nat) (s : str) : str := skipn k s.

Fixpoint lstrip (s : str) : str :=
  match s with
  | [] => []
  | c :: t => if isspace c then lstrip t else s
  end.

Definition rstrip (s : str) : str := rev (lstrip (rev s)).

(** [s.strip()]. *)
Definition strip (s : str) : str := rstrip (lstrip s).

(** [a == b] on strings. *)
Fixpoint str_eqb (a b : str) : bool :=
  match a, b with
  | [], [] => true
  | x :: a', y :: b' => (x =? y) && str_eqb a' b'
  | _, _ => false
  end.

(** Truth value of a string: non-empty. *)
Definition truthy (s : str) : bool :=
  match s with [] => false | _ :: _ => true end.

(** One-character membership, [c in s]. *)
Definition mem (c : char) (s : str) : bool := existsb (N.eqb c) s.

(** Whether [s.encode('latin-1')] works: every code point is below 256. *)
Definition latin1 (s : str) : bool := forallb (fun c => c <? 256) s.

End PyStr.
Import PyStr.

(** ** The request handlers *)

Module Http.

Abbreviation bytes := (list N) (only parsing).

Definition CRLF : bytes := [13; 10].

(** A value produced by [json.loads]. Of a float the handlers only test the
    truth value and take the text, so a float is kept as those two. *)
#[warnings="-register-all"]
Inductive pyval : Type :=
| PNone
| PBool (b : bool)
| PInt (z : Z)
| PFloat (zero : bool) (text : str)
| PStr (s : str)
| PList (l : list pyval)
| PDict (d : gmap (list N) pyval).

(** [bool(v)], as [not v] needs it. *)
Definition py_truthy (v : pyval) : bool :=
  match v with
  | PNone => false
  | PBool b => b
  | PInt z => negb (z =? 0)%Z
  | PFloat zero _ => negb zero
  | PStr s => truthy s
  | PList l => match l with [] => false | _ :: _ => true end
  | PDict d => negb (Nat.eqb (size d) 0)
  end.

(** [v == s] for a string literal [s]. *)
Definition py_eq_str (v : pyval) (s : str) : bool :=
  match v with
  | PStr x => str_eqb x s
  | _ => false
  end.

(** What reading and parsing the request body gives: the exception raised
    on the way (its [str(e)]), or the parsed value. The texts of the codec
    and of the JSON parser are made of ASCII characters; they are kept as
    8-bit strings. *)
Inductive body_outcome : Type :=
| Unreadable (e : str)               (* [int(headers[..])] or [rfile.read] raised *)
| Undecodable (e : string)           (* [decode] raised, or [json.loads] raised
                                        something else than [JSONDecodeError] *)
| BadJson (e : string) (raw : str)   (* [JSONDecodeError]; [raw] is the text of
                                        [post_data[:200]] *)
| Parsed (data : pyval).

Record request : Type := { path : str; body : body_outcome }.

(** A call of the [python-docx] document. *)
Inductive docx_call : Type :=
| AddHeading (text : str) (level : Z)
| AddParagraph (text : str).

(** What a handler does that can be seen from outside. [SendError] and
    [SendHeader] stand for calls that went through: a call that fails on
    its text sends nothing and leaves no event. A call to the world outside
    the server, from [Urlopen] on, is recorded when it is made, whether it
    then succeeds or raises. *)
Inductive event : Type :=
| Stdout (text : str)
| SendError (code : Z) (message : option str)
| SendResponse (code : Z)
| SendHeader (keyword value : str)
| EndHeaders
| WfileWrite (data : bytes)
| Urlopen (url content_type : str) (data : bytes)
| DocxCall (call : docx_call)
| DocxSave
| FileWrite (name : str) (text : pyval)
| SubprocessRun (script temp_md : str) (format_type : pyval)
| FileRead (name : str)
| Unlink (name : str).

Inductive result (A : Type) : Type :=
| Ok (a : A)
| Raise (e : str).
Arguments Ok {A} a.
Arguments Raise {A} e.

(** The answers of everything outside the handler. Writing to standard
    output and writing bytes to the client are taken to succeed. The last
    fields say which texts latin-1 can hold. Numbers, hash digits and the
    texts of Python's own errors (a missing attribute, a character a codec
    refuses, which it names by its escape) are ASCII by construction. The
    address of the backend is taken to be latin-1, and with it the texts of
    the failures of a request to it, which quote the address, the status
    line of the answer or a system error; so are the texts of the failures
    of the document library. Error texts that quote a path, a command line
    or the output of the script can be anything. *)
Record env : Type := {
  now : Z;                                   (* [int(time.time())] *)
  str_of_int : Z -> str;                     (* [str(n)] *)
  format_value : pyval -> str;               (* a value that is not a [str], in an f-string *)
  attribute_error : pyval -> str -> str;     (* text of the [AttributeError] *)
  type_error : pyval -> str;                 (* text of the [TypeError] *)
  codec_error : str -> str;                  (* text of the [UnicodeEncodeError] for a
                                                line that latin-1 cannot hold *)
  encode : str -> result bytes;              (* [s.encode()] *)
  md5_hexdigest : bytes -> str;
  GOTENBERG_URL : str;
  boundary_digest : str;                     (* [md5(str(time.time()).encode()).hexdigest()] *)
  new_request : str -> result unit;          (* [urllib.request.Request(url, ..)], which
                                                refuses a url it cannot parse *)
  urlopen : str -> bytes -> result bytes;    (* the response body *)
  docx_installed : bool;
  docx_add : docx_call -> result unit;       (* [add_heading], [add_paragraph], which
                                                refuse a text XML cannot hold *)
  docx_save : list docx_call -> result bytes;
  gettempdir : str;
  path_join : str -> str -> str;
  named_temporary_file : str;                (* name of the fresh [.md] file *)
  script_dir : str;
  file_write : str -> pyval -> result unit;
  subprocess_run : str -> str -> pyval -> result (Z * str);  (* [returncode], [stderr] *)
  path_exists : str -> bool;
  file_read : str -> result bytes;
  unlink : str -> result unit;
  str_of_int_latin1 : forall z, latin1 (str_of_int z) = true;
  md5_hexdigest_latin1 : forall b, latin1 (md5_hexdigest b) = true;
  attribute_error_latin1 :
    forall v name, latin1 name = true -> latin1 (attribute_error v name) = true;
  codec_error_latin1 : forall s, latin1 (codec_error s) = true;
  encode_error_latin1 : forall s e, encode s = Raise e -> latin1 e = true;
  GOTENBERG_URL_latin1 : latin1 GOTENBERG_URL = true;
  new_request_error_latin1 :
    forall u e, latin1 u = true -> new_request u = Raise e -> latin1 e = true;
  urlopen_error_latin1 :
    forall u d e, latin1 u = true -> urlopen u d = Raise e -> latin1 e = true;
  docx_add_error_latin1 : forall c e, docx_add c = Raise e -> latin1 e = true;
  docx_save_error_latin1 : forall cs e, docx_save cs = Raise e -> latin1 e = true
}.

(** Handler code: it reads the events so far, adds its own, and returns or
    raises. *)
Definition M (A : Type) : Type := list event -> result A * list event.

Definition ret {A} (a : A) : M A := fun tr => (Ok a, tr).
Definition raise {A} (e : str) : M A := fun tr => (Raise e, tr).
Definition bind {A B} (m : M A) (k : A -> M B) : M B :=
  fun tr => match m tr with
            | (Ok a, tr') => k a tr'
            | (Raise e, tr') => (Raise e, tr')
            end.
Definition emit (ev : event) : M unit := fun tr => (Ok tt, tr ++ [ev]).
Definition lift {A} (r : result A) : M A := fun tr => (r, tr).

(** [try: m  except Exception as e: h e]. *)
Definition try_except {A} (m : M A) (h : str -> M A) : M A :=
  fun tr => match m tr with
            | (Ok a, tr') => (Ok a, tr')
            | (Raise e, tr') => h e tr'
            end.

Declare Scope py_scope.
Delimit Scope py_scope with py.
Notation "'let*' x ':=' m 'in' k" := (bind m (fun x => k))
  (at level 10, x name, m at level 100, k at level 200) : py_scope.
Notation "m ';;' k" := (bind m (fun _ => k))
  (at level 100, k at level 200, right associativity) : py_scope.

Definition print (text : str) : M unit := emit (Stdout text).

(** The status line and a header line as [http.server] writes them, before
    it encodes them as latin-1. *)
Definition status_line (E : env) (code : Z) (message : str) : str :=
  lit "HTTP/1.0 " ++ str_of_int E code ++ lit " " ++ message ++ CRLF.
Definition header_line (keyword value : str) : str :=
  keyword ++ lit ": " ++ value ++ CRLF.

(** [send_error(code, message)]. With a message, the status line is encoded
    as latin-1 first: when that fails, [UnicodeEncodeError] is raised and
    nothing has been sent. Without a message the standard phrase is used. *)
Definition send_error (E : env) (code : Z) (message : option str) : M unit :=
  match message with
  | None => emit (SendError code None)
  | Some text =>
      if latin1 (status_line E code text) then emit (SendError code message)
      else raise (codec_error E (status_line E code text))
  end.

Definition send_response (code : Z) : M unit := emit (SendResponse code).

(** [send_header(keyword, value)]: the header line is encoded as latin-1,
    and [UnicodeEncodeError] is raised when that fails. *)
Definition send_header (E : env) (keyword value : str) : M unit :=
  if latin1 (header_line keyword value) then emit (SendHeader keyword value)
  else raise (codec_error E (header_line keyword value)).

Definition end_headers : M unit := emit EndHeaders.
Definition wfile_write (data : bytes) : M unit := emit (WfileWrite data).

(** [data.get(key, default)]: only a [dict] has the method. *)
Definition data_get (E : env) (data : pyval) (key : str) (dflt : pyval) : M pyval :=
  match data with
  | PDict d => ret (default dflt (d !! key))
  | _ => raise (attribute_error E data (lit "get"))
  end.

(** A value in an f-string. *)
Definition fmt (E : env) (v : pyval) : str :=
  match v with
  | PStr s => s
  | _ => format_value E v
  end.

(** [hashlib.md5(markdown.encode()).hexdigest()[:8]]: only a [str] has
    [encode]. *)
Definition hash_id_of (E : env) (markdown : pyval) : M str :=
  match markdown with
  | PStr s =>
      (let* b := lift (encode E s) in
       ret (firstn 8 (md5_hexdigest E b)))%py
  | _ => raise (attribute_error E markdown (lit "encode"))
  end.

(** The string methods [markdown_to_html] calls, on any value: a value that
    is not a [str] has none of them. *)
Definition py_replace (E : env) (v : pyval) (old : char) (new : str) : M pyval :=
  match v with
  | PStr s => ret (PStr (replace old new s))
  | _ => raise (attribute_error E v (lit "replace"))
  end.

Definition py_split (E : env) (v : pyval) (sep : char) : M (list pyval) :=
  match v with
  | PStr s => ret (map PStr (split sep s))
  | _ => raise (attribute_error E v (lit "split"))
  end.

Definition py_startswith (E : env) (v : pyval) (prefix : str) : M bool :=
  match v with
  | PStr s => ret (startswith prefix s)
  | _ => raise (attribute_error E v (lit "startswith"))
  end.

Definition py_strip (E : env) (v : pyval) : M pyval :=
  match v with
  | PStr s => ret (PStr (strip s))
  | _ => raise (attribute_error E v (lit "strip"))
  end.

(** [v[k:]]: a [str] or a [list] can be sliced. *)
Definition py_slice_from (E : env) (v : pyval) (k : nat) : M pyval :=
  match v with
  | PStr s => ret (PStr (slice_from k s))
  | PList l => ret (PList (skipn k l))
  | _ => raise (type_error E v)
  end.

(** [sep.join(items)]: every item has to be a [str]. *)
Fixpoint strings_of (E : env) (items : list pyval) : M (list str) :=
  match items with
  | [] => ret []
  | PStr s :: rest =>
      (let* tail := strings_of E rest in
       ret (s :: tail))%py
  | item :: _ => raise (type_error E item)
  end.

Definition py_join (E : env) (sep : str) (items : list pyval) : M str :=
  (let* texts := strings_of E items in
   ret (join sep texts))%py.

(** [for x in items: acc = body(acc, x)]. *)
Fixpoint for_each {A} (items : list pyval) (body : A -> pyval -> M A) (acc : A) : M A :=
  match items with
  | [] => ret acc
  | x :: rest => bind (body acc x) (for_each rest body)
  end.

Definition pdf_type : str := lit "application/pdf".
Definition docx_type : str :=
  lit "application/vnd.openxmlformats-officedocument.wordprocessingml.document".
Definition no_markdown : str := lit "No markdown content provided".

End Http.
Import Http.

(** ** [export-api-v2.py] *)

Module ExportApiV2.

Local Open Scope py_scope.

(** The three replacements of the first statement, in source order. *)
Definition html_escape (markdown : str) : str :=
  replace 62 (lit "&gt;") (replace 60 (lit "&lt;") (replace 38 (lit "&amp;") markdown)).

(** Body of the [for] loop: the string appended for one line. *)
Definition format_line (line : str) : str :=
  if startswith (lit "#### ") line then lit "<h4>" ++ slice_from 5 line ++ lit "</h4>"
  else if startswith (lit "### ") line then lit "<h3>" ++ slice_from 4 line ++ lit "</h3>"
  else if startswith (lit "## ") line then lit "<h2>" ++ slice_from 3 line ++ lit "</h2>"
  else if startswith (lit "# ") line then lit "<h1>" ++ slice_from 2 line ++ lit "</h1>"
  else if str_eqb (strip line) (lit "---") then lit "<hr>"
  else if truthy (strip line) then lit "<p>" ++ line ++ lit "</p>"
  else lit "<br>".

(** The loop itself: [formatted_lines] starts empty and grows by one
    [append] per line. *)
Definition format_loop (lines : list str) : list str :=
  fold_left (fun formatted_lines line => formatted_lines ++ [format_line line]) lines [].

(** The document template (an f-string), cut at its two holes. *)
Definition doc_head : str :=
  join [LF]
    [lit "<!DOCTYPE html>";
     lit "<html>";
     lit "<head>";
     lit "    <meta charset=" ++ dq ++ lit "UTF-8" ++ dq ++ lit ">";
     lit "    <title>"].

Definition doc_mid : str :=
  join [LF]
    [lit "</title>";
     lit "    <style>";
     lit "        body {";
     lit "            font-family: -apple-system, BlinkMacSystemFont, 'Segoe UI', Roboto, 'Helvetica Neue', Arial, sans-serif;";
     lit "            max-width: 800px;";
     lit "            margin: 40px auto;";
     lit "            padding: 20px;";
     lit "            line-height: 1.6;";
     lit "            color: #333;";
     lit "        }";
     lit "        h1 { color: #2c3e50; border-bottom: 2px solid #3498db; padding-bottom: 10px; }";
     lit "        h2 { color: #34495e; margin-top: 24px; }";
     lit "        h3 { color: #7f8c8d; }";
     lit "        pre {";
     lit "            background: #f4f4f4;";
     lit "            padding: 12px;";
     lit "            border-radius: 5px;";
     lit "            overflow-x: auto;";
     lit "            border-left: 3px solid #3498db;";
     lit "        }";
     lit "        code {";
     lit "            background: #f4f4f4;";
     lit "            padding: 2px 6px;";
     lit "            border-radius: 3px;";
     lit "            font-family: 'Courier New', monospace;";
     lit "        }";
     lit "        p { margin: 12px 0; }";
     lit "        hr { border: none; border-top: 1px solid #ddd; margin: 24px 0; }";
     lit "    </style>";
     lit "</head>";
     lit "<body>";
     []].

Definition doc_tail : str :=
  join [LF] [[]; lit "</body>"; lit "</html>"].

Definition template (title html : str) : str :=
  doc_head ++ title ++ doc_mid ++ html ++ doc_tail.

(** [formatted_lines] as it stands when the loop ends. *)
Definition formatted_lines (markdown : str) : list str :=
  let html := html_escape markdown in
  let lines := split LF html in
  format_loop lines.

Definition markdown_to_html (markdown title : str) : str :=
  let html := join [LF] (formatted_lines markdown) in
  template title html.


(** The default of the [title] parameter. *)
Definition default_title : str := lit "Conversation".

(** The method as Python runs it, on whatever values it is given. Every
    step that can raise is a step of its own: the three [replace], the
    [split], and in the loop [startswith], the slice and [strip]; an
    f-string takes any value. *)
Definition format_step (E : env) (formatted_lines : list pyval) (line : pyval)
  : M (list pyval) :=
  let append text := ret (formatted_lines ++ [PStr text]) in
  let* h4 := py_startswith E line (lit "#### ") in
  if h4 then
    let* rest := py_slice_from E line 5 in
    append (lit "<h4>" ++ fmt E rest ++ lit "</h4>")
  else
  let* h3 := py_startswith E line (lit "### ") in
  if h3 then
    let* rest := py_slice_from E line 4 in
    append (lit "<h3>" ++ fmt E rest ++ lit "</h3>")
  else
  let* h2 := py_startswith E line (lit "## ") in
  if h2 then
    let* rest := py_slice_from E line 3 in
    append (lit "<h2>" ++ fmt E rest ++ lit "</h2>")
  else
  let* h1 := py_startswith E line (lit "# ") in
  if h1 then
    let* rest := py_slice_from E line 2 in
    append (lit "<h1>" ++ fmt E rest ++ lit "</h1>")
  else
  let* stripped := py_strip E line in
  if py_eq_str stripped (lit "---") then append (lit "<hr>")
  else
  let* stripped := py_strip E line in
  if py_truthy stripped then append (lit "<p>" ++ fmt E line ++ lit "</p>")
  else append (lit "<br>").

Definition markdown_to_html_method (E : env) (markdown title : pyval) : M str :=
  let* html := py_replace E markdown 38 (lit "&amp;") in
  let* html := py_replace E html 60 (lit "&lt;") in
  let* html := py_replace E html 62 (lit "&gt;") in
  let* lines := py_split E html LF in
  let* formatted_lines := for_each lines (format_step E) [] in
  let* html := py_join E [LF] formatted_lines in
  ret (doc_head ++ fmt E title ++ doc_mid ++ html ++ doc_tail).

(** The request object is built before anything is sent: a url that
    [urllib] cannot parse ends the conversion there. *)
Definition convert_to_pdf (E : env) (html_content : str) : M bytes :=
  try_except
    (let boundary := lit "----WebKitFormBoundary" ++ firstn 16 (boundary_digest E) in
     let* html_bytes := lift (encode E html_content) in
     let body :=
       [lit "--" ++ boundary;
        lit "Content-Disposition: form-data; name=" ++ dq ++ lit "files" ++ dq
          ++ lit "; filename=" ++ dq ++ lit "index.html" ++ dq;
        lit "Content-Type: text/html";
        [];
        html_bytes;
        lit "--" ++ boundary ++ lit "--";
        []] in
     let body_bytes := join CRLF body in
     let url := GOTENBERG_URL E ++ lit "/forms/chromium/convert/html" in
     lift (new_request E url) ;;
     emit (Urlopen url (lit "multipart/form-data; boundary=" ++ boundary) body_bytes) ;;
     lift (urlopen E url body_bytes))
    (fun e => raise (lit "Gotenberg conversion failed: " ++ e)).

(** The calls [convert_to_docx] has to make on the document, in order: the
    title, then what each line asks for. *)
Definition docx_calls (markdown : str) : list docx_call :=
  AddHeading (lit "Conversation Export") 0 ::
  flat_map
    (fun line =>
       let line := strip line in
       if negb (truthy line) then []
       else if startswith (lit "# ") line then [AddHeading (slice_from 2 line) 1]
       else if startswith (lit "## ") line then [AddHeading (slice_from 3 line) 2]
       else if startswith (lit "### ") line then [AddHeading (slice_from 4 line) 3]
       else if startswith (lit "---") line then [AddParagraph (repeat 95 50)]
       else [AddParagraph line])
    (split LF markdown).

(** Making the calls one after the other: the first that raises ends the
    run, and the calls after it are never made. *)
Fixpoint docx_run (E : env) (calls : list docx_call) : M unit :=
  match calls with
  | [] => ret tt
  | call :: rest =>
      emit (DocxCall call) ;;
      lift (docx_add E call) ;;
      docx_run E rest
  end.

(** Only [ImportError] is caught: what a call on the document or [save]
    raises goes to the caller as it is. *)
Definition convert_to_docx (E : env) (markdown : str) : M bytes :=
  if docx_installed E then
    docx_run E (docx_calls markdown) ;;
    emit DocxSave ;;
    lift (docx_save E (docx_calls markdown))
  else raise (lit "python-docx not installed. PDF export only.").

(** The tail of [do_POST]: the file goes out. *)
Definition send_file (E : env) (filename content_type : str) (file_content : bytes) : M unit :=
  send_response 200 ;;
  send_header E (lit "Access-Control-Allow-Origin") (lit "*") ;;
  send_header E (lit "Content-Type") content_type ;;
  send_header E (lit "Content-Disposition")
    (lit "attachment; filename=" ++ dq ++ filename ++ dq) ;;
  send_header E (lit "Content-Length") (str_of_int E (Z.of_nat (length file_content))) ;;
  end_headers ;;
  wfile_write file_content ;;
  print ([9989] ++ lit " Converted and sent " ++ filename).

Definition do_POST (E : env) (req : request) : M unit :=
  if str_eqb (path req) (lit "/api/convert") then
    match body req with
    | Unreadable e => raise e
    | parsed =>
        try_except
          (let* data :=
             match parsed with
             | Parsed data => ret data
             | BadJson e raw =>
                 print ([10060] ++ lit " JSON decode error: " ++ lit e) ;;
                 print (lit "   Raw data: " ++ raw) ;;
                 raise (lit "Invalid JSON: " ++ lit e)
             | Undecodable e => raise (lit e)
             | Unreadable e => raise e
             end in
           let* markdown := data_get E data (lit "markdown") (PStr []) in
           let* format_type := data_get E data (lit "format") (PStr (lit "pdf")) in
           if negb (py_truthy markdown) then
             send_error E 400 (Some no_markdown)
           else
             let timestamp := now E in
             match markdown with
             | PStr markdown =>
                 let* encoded := lift (encode E markdown) in
                 let hash_id := firstn 8 (md5_hexdigest E encoded) in
                 let filename :=
                   lit "conversation-" ++ str_of_int E timestamp ++ lit "-" ++ hash_id
                     ++ lit "." ++ fmt E format_type in
                 if py_eq_str format_type (lit "pdf") then
                   let* html_content :=
                     markdown_to_html_method E (PStr markdown)
                       (PStr (lit "Conversation Export")) in
                   let* file_content := convert_to_pdf E html_content in
                   send_file E filename pdf_type file_content
                 else if py_eq_str format_type (lit "docx") then
                   let* file_content := convert_to_docx E markdown in
                   send_file E filename docx_type file_content
                 else
                   send_error E 400 (Some (lit "Unsupported format: " ++ fmt E format_type))
             | _ =>
                 (* [markdown.encode()] on a value that is not a [str] *)
                 raise (attribute_error E markdown (lit "encode"))
             end)
          (fun e =>
             print ([10060] ++ lit " Conversion error: " ++ e) ;;
             send_error E 500 (Some e))
    end
  else send_error E 404 None.

End ExportApiV2.

(** ** [export-api.py] *)

Module ExportApi.

Local Open Scope py_scope.

Definition do_POST (E : env) (req : request) : M unit :=
  if str_eqb (path req) (lit "/api/convert") then
    match body req with
    | Unreadable e => raise e
    | parsed =>
        try_except
          (let* data :=
             match parsed with
             | Parsed data => ret data
             | BadJson e _ | Undecodable e => raise (lit e)
             | Unreadable e => raise e
             end in
           let* markdown := data_get E data (lit "markdown") (PStr []) in
           let* format_type := data_get E data (lit "format") (PStr (lit "pdf")) in
           if negb (py_truthy markdown) then
             send_error E 400 (Some no_markdown)
           else
             let timestamp := now E in
             let* hash_id := hash_id_of E markdown in
             let filename :=
               lit "conversation-" ++ str_of_int E timestamp ++ lit "-" ++ hash_id in
             let temp_dir := gettempdir E in
             let temp_md := path_join E temp_dir (filename ++ lit ".md") in
             emit (FileWrite temp_md markdown) ;;
             lift (file_write E temp_md markdown) ;;
             let output_file :=
               path_join E temp_dir (filename ++ lit "." ++ fmt E format_type) in
             let script_path := lit "/app/convert-export.sh" in
             emit (SubprocessRun script_path temp_md format_type) ;;
             let* result := lift (subprocess_run E script_path temp_md format_type) in
             let returncode := fst result in
             let stderr := snd result in
             if negb (returncode =? 0)%Z || negb (path_exists E output_file) then
               send_error E 500 (Some (lit "Conversion failed: " ++ stderr))
             else
               emit (FileRead output_file) ;;
               let* content := lift (file_read E output_file) in
               send_response 200 ;;
               send_header E (lit "Access-Control-Allow-Origin") (lit "*") ;;
               send_header E (lit "Content-Type")
                 (if py_eq_str format_type (lit "pdf") then pdf_type else docx_type) ;;
               send_header E (lit "Content-Disposition")
                 (lit "attachment; filename=" ++ dq ++ filename ++ lit "."
                    ++ fmt E format_type ++ dq) ;;
               send_header E (lit "Content-Length")
                 (str_of_int E (Z.of_nat (length content))) ;;
               end_headers ;;
               wfile_write content ;;
               try_except
                 (emit (Unlink temp_md) ;; lift (unlink E temp_md) ;;
                  emit (Unlink output_file) ;; lift (unlink E output_file))
                 (fun _ => ret tt))
          (fun e => send_error E 500 (Some e))
    end
  else send_error E 404 None.

End ExportApi.

(** ** [download-server.py] *)

Module DownloadServer.

Local Open Scope py_scope.

(** [s.replace(old, new)] for a non-empty [old]; [fuel] bounds the number
    of steps, and the length of [s] is enough. *)
Fixpoint replace_fuel (fuel : nat) (old new s : str) : str :=
  match fuel with
  | O => s
  | S fuel' =>
      if startswith old s then new ++ replace_fuel fuel' old new (skipn (length old) s)
      else match s with
           | [] => []
           | c :: s' => c :: replace_fuel fuel' old new s'
           end
  end.

Definition replace_sub (old new s : str) : str := replace_fuel (length s) old new s.

Definition do_POST (E : env) (req : request) : M unit :=
  if str_eqb (path req) (lit "/convert") then
    let* data :=
      match body req with
      | Parsed data => ret data
      | BadJson e _ | Undecodable e => raise (lit e)
      | Unreadable e => raise e
      end in
    let* markdown := data_get E data (lit "markdown") (PStr []) in
    let* format_type := data_get E data (lit "format") (PStr (lit "pdf")) in
    if negb (py_truthy markdown) then
      send_error E 400 (Some no_markdown)
    else
      try_except
        (let temp_md := named_temporary_file E in
         emit (FileWrite temp_md markdown) ;;
         lift (file_write E temp_md markdown) ;;
         let script_dir := script_dir E in
         let output_file := replace_sub (lit ".md") (lit "." ++ fmt E format_type) temp_md in
         let script := script_dir ++ lit "/convert-export.sh" in
         emit (SubprocessRun script temp_md format_type) ;;
         let* result := lift (subprocess_run E script temp_md format_type) in
         let returncode := fst result in
         let stderr := snd result in
         if negb (returncode =? 0)%Z then
           send_error E 500 (Some (lit "Conversion failed: " ++ stderr))
         else
           emit (FileRead output_file) ;;
           let* content := lift (file_read E output_file) in
           send_response 200 ;;
           send_header E (lit "Content-type")
             (if py_eq_str format_type (lit "pdf") then pdf_type else docx_type) ;;
           send_header E (lit "Content-Disposition")
             (lit "attachment; filename=" ++ dq ++ lit "conversation."
                ++ fmt E format_type ++ dq) ;;
           send_header E (lit "Content-Length") (str_of_int E (Z.of_nat (length content))) ;;
           end_headers ;;
           wfile_write content ;;
           emit (Unlink temp_md) ;; lift (unlink E temp_md) ;;
           emit (Unlink output_file) ;; lift (unlink E output_file))
        (fun e => send_error E 500 (Some e))
  else send_error E 404 None.

End DownloadServer.
Import ExportApiV2.

(** ** Notions used to state the properties *)

(** What one character of the input becomes when each character is escaped
    once, all three rules applied side by side. *)
Definition entity_of (c : char) : str :=
  if c =? 38 then lit "&amp;"
  else if c =? 60 then lit "&lt;"
  else if c =? 62 then lit "&gt;"
  else [c].

(** Characters the escaping leaves alone. *)
Definition plain (c : char) : bool :=
  negb (c =? 38) && negb (c =? 60) && negb (c =? 62).

(** Characters of the tags that [format_line] writes. *)
Definition tag_chars : str := lit "<>/h1234pbr".

(** Needles for which the document can be searched part by part: the first
    character is neither blank, [#] nor [-]; some character is foreign to
    the tags; there is no line feed, [>] at most at the end, [<] at most at
    the start; and the template does not hold the needle. *)
Definition inline_needle (n : str) : bool :=
  match n with
  | [] => false
  | c :: n' =>
      negb (isspace c) && negb (c =? 35) && negb (c =? 45)
      && existsb (fun x => negb (mem x tag_chars)) n
      && negb (mem 62 (removelast n)) && negb (mem 60 n') && negb (mem LF n)
      && negb (contains n doc_head) && negb (contains n doc_mid) && negb (contains n doc_tail)
  end.

(** An environment in which nothing fails, to run the handlers on examples. *)
Definition quiet_env : env :=
  {| now := 1700000000;
     str_of_int := fun _ => lit "0";
     format_value := fun _ => lit "None";
     attribute_error := fun _ name => lit "object has no attribute " ++ name;
     type_error := fun _ => lit "expected str instance";
     codec_error := fun _ => lit "'latin-1' codec can't encode characters";
     encode := fun s => Ok s;
     md5_hexdigest := fun _ => lit "d41d8cd98f00b204e9800998ecf8427e";
     GOTENBERG_URL := lit "http://gotenberg:3000";
     boundary_digest := lit "0123456789abcdef0123456789abcdef";
     new_request := fun _ => Ok tt;
     urlopen := fun _ _ => Ok (lit "%PDF");
     docx_installed := true;
     docx_add := fun _ => Ok tt;
     docx_save := fun _ => Ok (lit "PK");
     gettempdir := lit "/tmp";
     path_join := fun a b => a ++ lit "/" ++ b;
     named_temporary_file := lit "/tmp/tmpabc.md";
     script_dir := lit "/app";
     file_write := fun _ _ => Ok tt;
     subprocess_run := fun _ _ _ => Ok (0%Z, []);
     path_exists := fun _ => true;
     file_read := fun _ => Ok (lit "%PDF");
     unlink := fun _ => Ok tt;
     str_of_int_latin1 := fun _ => eq_refl;
     md5_hexdigest_latin1 := fun _ => eq_refl;
     attribute_error_latin1 := fun _ name H =>
       ltac:(unfold latin1 in *; rewrite forallb_app, H; reflexivity);
     codec_error_latin1 := fun _ => eq_refl;
     encode_error_latin1 := fun s e H => ltac:(discriminate H);
     GOTENBERG_URL_latin1 := eq_refl;
     new_request_error_latin1 := fun u e _ H => ltac:(discriminate H);
     urlopen_error_latin1 := fun u d e _ H => ltac:(discriminate H);
     docx_add_error_latin1 := fun c e H => ltac:(discriminate H);
     docx_save_error_latin1 := fun cs e H => ltac:(discriminate H) |}.

(** The seven kinds of block of the specification. *)
Inductive kind : Type := KH4 | KH3 | KH2 | KH1 | KRule | KPara | KBreak.

(** When a line is of a kind, as the specification lists the seven cases,
    each stated on its own. *)
Definition matches (k : kind) (line : str) : bool :=
  match k with
  | KH4 => startswith (lit "#### ") line
  | KH3 => startswith (lit "### ") line
  | KH2 => startswith (lit "## ") line
  | KH1 => startswith (lit "# ") line
  | KRule => str_eqb (strip line) (lit "---")
  | KPara =>
      truthy (strip line)
      && negb (startswith (lit "#### ") line || startswith (lit "### ") line
               || startswith (lit "## ") line || startswith (lit "# ") line
               || str_eqb (strip line) (lit "---"))
  | KBreak => negb (truthy (strip line))
  end.

(** The tag written for a block of each kind. *)
Definition render (k : kind) (line : str) : str :=
  match k with
  | KH4 => lit "<h4>" ++ slice_from 5 line ++ lit "</h4>"
  | KH3 => lit "<h3>" ++ slice_from 4 line ++ lit "</h3>"
  | KH2 => lit "<h2>" ++ slice_from 3 line ++ lit "</h2>"
  | KH1 => lit "<h1>" ++ slice_from 2 line ++ lit "</h1>"
  | KRule => lit "<hr>"
  | KPara => lit "<p>" ++ line ++ lit "</p>"
  | KBreak => lit "<br>"
  end.

(** The kind the first-match order of the loop body picks. *)
Definition classify (line : str) : kind :=
  if startswith (lit "#### ") line then KH4
  else if startswith (lit "### ") line then KH3
  else if startswith (lit "## ") line then KH2
  else if startswith (lit "# ") line then KH1
  else if str_eqb (strip line) (lit "---") then KRule
  else if truthy (strip line) then KPara
  else KBreak.

(** The text a line of each kind hands to its block, and the tag of each
    kind around a text. *)
Definition content (k : kind) (line : str) : str :=
  match k with
  | KH4 => slice_from 5 line
  | KH3 => slice_from 4 line
  | KH2 => slice_from 3 line
  | KH1 => slice_from 2 line
  | KPara => line
  | KRule | KBreak => []
  end.

Definition tagged (k : kind) (text : str) : str :=
  match k with
  | KH4 => lit "<h4>" ++ text ++ lit "</h4>"
  | KH3 => lit "<h3>" ++ text ++ lit "</h3>"
  | KH2 => lit "<h2>" ++ text ++ lit "</h2>"
  | KH1 => lit "<h1>" ++ text ++ lit "</h1>"
  | KRule => lit "<hr>"
  | KPara => lit "<p>" ++ text ++ lit "</p>"
  | KBreak => lit "<br>"
  end.

(** The lines of the document that come before the first block: the
    template down to [<body>], with the title in it. *)
Definition head_lines (title : str) : list str :=
  removelast (split LF (doc_head ++ title ++ doc_mid)).

(** The first call of [convert_to_docx]. *)
Definition docx_title : docx_call := AddHeading (lit "Conversation Export") 0.

(** What the loop of [convert_to_docx] adds for one line. *)
Definition docx_line (line : str) : list docx_call :=
  let line := strip line in
  if negb (truthy line) then []
  else if startswith (lit "# ") line then [AddHeading (slice_from 2 line) 1]
  else if startswith (lit "## ") line then [AddHeading (slice_from 3 line) 2]
  else if startswith (lit "### ") line then [AddHeading (slice_from 4 line) 3]
  else if startswith (lit "---") line then [AddParagraph (repeat 95 50)]
  else [AddParagraph line].

(** A call that puts visible text of its own into the document: a heading
    of level 1 to 3 or a paragraph, with a text that is not empty. *)
Definition docx_call_ok (c : docx_call) : bool :=
  match c with
  | AddHeading text level => truthy text && ((1 <=? level)%Z && (level <=? 3)%Z)
  | AddParagraph text => truthy text
  end.

(** Events that start a response to the client. *)
Definition is_response (ev : event) : bool :=
  match ev with
  | SendError _ _ | SendResponse _ => true
  | _ => false
  end.

(** Events by which a handler reaches outside: files, the script, the
    rendering backend, the document library. *)
Definition is_outside (ev : event) : bool :=
  match ev with
  | Urlopen _ _ _ | DocxCall _ | DocxSave | FileWrite _ _ | SubprocessRun _ _ _
  | FileRead _ | Unlink _ => true
  | _ => false
  end.

(** [quiet_env], but removing a file fails. *)
Definition stuck_files_env : env :=
  {| now := now quiet_env;
     str_of_int := str_of_int quiet_env;
     format_value := format_value quiet_env;
     attribute_error := attribute_error quiet_env;
     type_error := type_error quiet_env;
     codec_error := codec_error quiet_env;
     encode := encode quiet_env;
     md5_hexdigest := md5_hexdigest quiet_env;
     GOTENBERG_URL := GOTENBERG_URL quiet_env;
     boundary_digest := boundary_digest quiet_env;
     new_request := new_request quiet_env;
     urlopen := urlopen quiet_env;
     docx_installed := docx_installed quiet_env;
     docx_add := docx_add quiet_env;
     docx_save := docx_save quiet_env;
     gettempdir := gettempdir quiet_env;
     path_join := path_join quiet_env;
     named_temporary_file := named_temporary_file quiet_env;
     script_dir := script_dir quiet_env;
     file_write := file_write quiet_env;
     subprocess_run := subprocess_run quiet_env;
     path_exists := path_exists quiet_env;
     file_read := file_read quiet_env;
     unlink := fun _ => Raise (lit "Permission denied");
     str_of_int_latin1 := str_of_int_latin1 quiet_env;
     md5_hexdigest_latin1 := md5_hexdigest_latin1 quiet_env;
     attribute_error_latin1 := attribute_error_latin1 quiet_env;
     codec_error_latin1 := codec_error_latin1 quiet_env;
     encode_error_latin1 := encode_error_latin1 quiet_env;
     GOTENBERG_URL_latin1 := GOTENBERG_URL_latin1 quiet_env;
     new_request_error_latin1 := new_request_error_latin1 quiet_env;
     urlopen_error_latin1 := urlopen_error_latin1 quiet_env;
     docx_add_error_latin1 := docx_add_error_latin1 quiet_env;
     docx_save_error_latin1 := docx_save_error_latin1 quiet_env |}.

(** [quiet_env], but the script fails and the backend is down. *)
Definition broken_tools_env : env :=
  {| now := now quiet_env;
     str_of_int := str_of_int quiet_env;
     format_value := format_value quiet_env;
     attribute_error := attribute_error quiet_env;
     type_error := type_error quiet_env;
     codec_error := codec_error quiet_env;
     encode := encode quiet_env;
     md5_hexdigest := md5_hexdigest quiet_env;
     GOTENBERG_URL := GOTENBERG_URL quiet_env;
     boundary_digest := boundary_digest quiet_env;
     new_request := new_request quiet_env;
     urlopen := fun _ _ => Raise (lit "Connection refused");
     docx_installed := false;
     docx_add := docx_add quiet_env;
     docx_save := docx_save quiet_env;
     gettempdir := gettempdir quiet_env;
     path_join := path_join quiet_env;
     named_temporary_file := named_temporary_file quiet_env;
     script_dir := script_dir quiet_env;
     file_write := file_write quiet_env;
     subprocess_run := fun _ _ _ => Ok (1%Z, lit "pandoc: not found");
     path_exists := path_exists quiet_env;
     file_read := file_read quiet_env;
     unlink := unlink quiet_env;
     str_of_int_latin1 := str_of_int_latin1 quiet_env;
     md5_hexdigest_latin1 := md5_hexdigest_latin1 quiet_env;
     attribute_error_latin1 := attribute_error_latin1 quiet_env;
     codec_error_latin1 := codec_error_latin1 quiet_env;
     encode_error_latin1 := encode_error_latin1 quiet_env;
     GOTENBERG_URL_latin1 := GOTENBERG_URL_latin1 quiet_env;
     new_request_error_latin1 := new_request_error_latin1 quiet_env;
     urlopen_error_latin1 := fun u d e _ H =>
       match H in (_ = r) return (match r with Raise x => latin1 x = true | Ok _ => True end)
       with eq_refl => eq_refl end;
     docx_add_error_latin1 := docx_add_error_latin1 quiet_env;
     docx_save_error_latin1 := docx_save_error_latin1 quiet_env |}.

(** [E], but for reading and removing files. *)
Definition with_files (E : env) (read : str -> result (list N))
    (remove : str -> result unit) : env :=
  {| now := now E;
     str_of_int := str_of_int E;
     format_value := format_value E;
     attribute_error := attribute_error E;
     type_error := type_error E;
     codec_error := codec_error E;
     encode := encode E;
     md5_hexdigest := md5_hexdigest E;
     GOTENBERG_URL := GOTENBERG_URL E;
     boundary_digest := boundary_digest E;
     new_request := new_request E;
     urlopen := urlopen E;
     docx_installed := docx_installed E;
     docx_add := docx_add E;
     docx_save := docx_save E;
     gettempdir := gettempdir E;
     path_join := path_join E;
     named_temporary_file := named_temporary_file E;
     script_dir := script_dir E;
     file_write := file_write E;
     subprocess_run := subprocess_run E;
     path_exists := path_exists E;
     file_read := read;
     unlink := remove;
     str_of_int_latin1 := str_of_int_latin1 E;
     md5_hexdigest_latin1 := md5_hexdigest_latin1 E;
     attribute_error_latin1 := attribute_error_latin1 E;
     codec_error_latin1 := codec_error_latin1 E;
     encode_error_latin1 := encode_error_latin1 E;
     GOTENBERG_URL_latin1 := GOTENBERG_URL_latin1 E;
     new_request_error_latin1 := new_request_error_latin1 E;
     urlopen_error_latin1 := urlopen_error_latin1 E;
     docx_add_error_latin1 := docx_add_error_latin1 E;
     docx_save_error_latin1 := docx_save_error_latin1 E |}.

(** The text of a failure that latin-1 cannot hold: a file name with a
    snowman in it. *)
Definition foreign_text : str := lit "No such file: " ++ [9731].

Example blank_line_mapping :
  formatted_lines (lit "A" ++ [LF; LF] ++ lit "B") = [lit "<p>A</p>"; lit "<br>"; lit "<p>B</p>"].
Proof. vm_compute. reflexivity. Qed.

Example hr_line :
  formatted_lines (lit "  ---  ") = [lit "<hr>"].
Proof. vm_compute. reflexivity. Qed.

(** ** Facts about the string operations *)

Section StrFacts.

Implicit Types (c x y : char) (s p n h a b u v : str) (ls : list str).

Lemma startswith_spec p s :
  startswith p s = true <-> exists r, s = p ++ r.
Proof.
  revert s. induction p as [|x p IH]; intros s; simpl.
  - split; [intros _; exists s; reflexivity | reflexivity].
  - destruct s as [|y s].
    + split; [discriminate | intros [r Hr]; discriminate].
    + rewrite andb_true_iff, N.eqb_eq, IH. split.
      * intros [-> [r ->]]. exists r. reflexivity.
      * intros [r Hr]. injection Hr as -> ->. split; [reflexivity | exists r; reflexivity].
Qed.

Lemma startswith_app p r : startswith p (p ++ r) = true.
Proof. apply startswith_spec. exists r. reflexivity. Qed.

Lemma startswith_slice p s :
  startswith p s = true -> s = p ++ slice_from (length p) s.
Proof.
  intros H. apply startswith_spec in H as [r ->].
  unfold slice_from. rewrite skipn_app, skipn_all, Nat.sub_diag. reflexivity.
Qed.

Lemma contains_unfold n h :
  contains n h = startswith n h || match h with [] => false | _ :: h' => contains n h' end.
Proof. destruct h; reflexivity. Qed.

Lemma contains_spec n h :
  contains n h = true <-> exists u v, h = u ++ n ++ v.
Proof.
  split.
  - induction h as [|y h IH]; rewrite contains_unfold, orb_true_iff.
    + intros [H | H]; [|discriminate].
      apply startswith_spec in H as [r Hr]. exists [], r. exact Hr.
    + intros [H | H].
      * apply startswith_spec in H as [r Hr]. exists [], r. exact Hr.
      * destruct (IH H) as (u & v & ->). exists (y :: u), v. reflexivity.
  - intros (u & v & ->). induction u as [|y u IH]; cbn [app]; rewrite contains_unfold.
    + rewrite startswith_app. reflexivity.
    + rewrite IH. apply orb_true_r.
Qed.

Lemma contains_app_l n a b : contains n a = true -> contains n (a ++ b) = true.
Proof.
  rewrite !contains_spec. intros (u & v & ->). exists u, (v ++ b).
  rewrite <- !app_assoc. reflexivity.
Qed.

Lemma contains_app_r n a b : contains n b = true -> contains n (a ++ b) = true.
Proof.
  rewrite !contains_spec. intros (u & v & ->). exists (a ++ u), v.
  rewrite <- !app_assoc. reflexivity.
Qed.

Lemma contains_self n : contains n n = true.
Proof. apply contains_spec. exists [], []. rewrite app_nil_r. reflexivity. Qed.

Lemma contains_trans n a b :
  contains n a = true -> contains a b = true -> contains n b = true.
Proof.
  rewrite !contains_spec. intros (u & v & ->) (u' & v' & ->).
  exists (u' ++ u), (v ++ v'). rewrite <- !app_assoc. reflexivity.
Qed.

Lemma contains_In n h c : contains n h = true -> In c n -> In c h.
Proof.
  intros H Hc. apply contains_spec in H as (u & v & ->).
  rewrite !in_app_iff. tauto.
Qed.

Lemma mem_In c s : mem c s = true <-> In c s.
Proof.
  unfold mem. rewrite existsb_exists. split.
  - intros (y & Hy & E). apply N.eqb_eq in E. subst. exact Hy.
  - intros H. exists c. split; [exact H | apply N.eqb_refl].
Qed.

Lemma mem_false c s : mem c s = false <-> ~ In c s.
Proof. rewrite <- mem_In. destruct (mem c s); split; congruence. Qed.

(** An occurrence of [n] in [a ++ b] lies in [a], lies in [b], or straddles
    the cut. *)
Lemma contains_app_cases n a b :
  contains n (a ++ b) = true ->
  contains n a = true \/ contains n b = true \/
  exists n1 n2 a' b', n = n1 ++ n2 /\ n1 <> [] /\ n2 <> [] /\ a = a' ++ n1 /\ b = n2 ++ b'.
Proof.
  intros H. apply contains_spec in H as (u & v & E).
  apply app_eq_app in E as [l [[-> E] | [-> E]]].
  - (* the occurrence starts inside [a] *)
    symmetry in E. apply app_eq_app in E as [l' [[-> E] | [-> E]]].
    + left. apply contains_spec. exists u, l'. reflexivity.
    + destruct l' as [|z l'].
      * left. apply contains_spec. exists u, []. rewrite !app_nil_r. reflexivity.
      * destruct l as [|w l].
        -- right; left. apply contains_spec. exists [], v. simpl. exact E.
        -- right; right. exists (w :: l), (z :: l'), u, v.
           repeat split; try discriminate. exact E.
  - right; left. apply contains_spec. exists l, v. exact E.
Qed.

(** If [a] ends with a character that occurs in [n] at most as its last
    character, no occurrence straddles the cut. *)
Lemma contains_app_last n a x b :
  mem x (removelast n) = false ->
  contains n ((a ++ [x]) ++ b) = contains n (a ++ [x]) || contains n b.
Proof.
  intros Hx. apply mem_false in Hx.
  destruct (contains n ((a ++ [x]) ++ b)) eqn:E.
  - symmetry. apply orb_true_iff.
    apply contains_app_cases in E as [E | [E | (n1 & n2 & a' & b' & -> & H1 & H2 & Ea & Eb)]];
      [left; exact E | right; exact E |].
    exfalso. apply Hx.
    destruct (exists_last H1) as (n1' & z & ->).
    rewrite app_assoc in Ea. apply app_inj_tail in Ea as [_ ->].
    rewrite removelast_app by exact H2.
    rewrite !in_app_iff. left. right. left. reflexivity.
  - symmetry. apply orb_false_iff. split.
    + destruct (contains n (a ++ [x])) eqn:E'; [|reflexivity].
      rewrite (contains_app_l _ _ b E') in E. discriminate.
    + destruct (contains n b) eqn:E'; [|reflexivity].
      rewrite (contains_app_r _ (a ++ [x]) _ E') in E. discriminate.
Qed.

(** If [b] starts with a character that occurs in [n] at most as its first
    character, no occurrence straddles the cut. *)
Lemma contains_app_first n a y b :
  mem y (tl n) = false ->
  contains n (a ++ y :: b) = contains n a || contains n (y :: b).
Proof.
  intros Hy. apply mem_false in Hy.
  destruct (contains n (a ++ y :: b)) eqn:E.
  - symmetry. apply orb_true_iff.
    apply contains_app_cases in E as [E | [E | (n1 & n2 & a' & b' & -> & H1 & H2 & Ea & Eb)]];
      [left; exact E | right; exact E |].
    exfalso. apply Hy.
    destruct n1 as [|w n1]; [congruence|].
    destruct n2 as [|z n2]; [congruence|].
    injection Eb as -> _. simpl. rewrite in_app_iff. right. left. reflexivity.
  - symmetry. apply orb_false_iff. split.
    + destruct (contains n a) eqn:E'; [|reflexivity].
      rewrite (contains_app_l _ _ (y :: b) E') in E. discriminate.
    + destruct (contains n (y :: b)) eqn:E'; [|reflexivity].
      rewrite (contains_app_r _ a _ E') in E. discriminate.
Qed.

End StrFacts.

Section SplitJoin.

Implicit Types (c sep : char) (s n a b l w : str) (ls : list str).

Lemma split_nonempty sep s : split sep s <> [].
Proof.
  destruct s as [|c t]; simpl; [discriminate|].
  destruct (c =? sep); [discriminate|].
  destruct (split sep t); discriminate.
Qed.

Lemma split_cons_sep sep t : split sep (sep :: t) = [] :: split sep t.
Proof. simpl. rewrite N.eqb_refl. reflexivity. Qed.

Lemma split_cons_other sep c t :
  c <> sep ->
  split sep (c :: t) = (c :: hd [] (split sep t)) :: tl (split sep t).
Proof.
  intros Hc. simpl. apply N.eqb_neq in Hc. rewrite Hc.
  pose proof (split_nonempty sep t) as Hne.
  destruct (split sep t); [congruence | reflexivity].
Qed.

Lemma split_app_other sep w s :
  ~ In sep w ->
  split sep (w ++ s) = (w ++ hd [] (split sep s)) :: tl (split sep s).
Proof.
  induction w as [|c w IH]; intros Hw.
  - simpl. pose proof (split_nonempty sep s). destruct (split sep s); [congruence | reflexivity].
  - cbn [app]. rewrite split_cons_other by (intros ->; apply Hw; left; reflexivity).
    rewrite IH by (intros H; apply Hw; right; exact H). reflexivity.
Qed.

Lemma join_cons2 (sp : str) l l2 ls :
  join sp (l :: l2 :: ls) = l ++ sp ++ join sp (l2 :: ls).
Proof. reflexivity. Qed.

(** Joining the pieces of a split gives the text back. *)
Lemma join_split sep s : join [sep] (split sep s) = s.
Proof.
  induction s as [|c t IH]; [reflexivity|].
  pose proof (split_nonempty sep t) as Hne.
  destruct (N.eq_dec c sep) as [-> | Hc].
  - rewrite split_cons_sep. cbn [join].
    destruct (split sep t) eqn:E; [congruence|]. rewrite IH. reflexivity.
  - rewrite split_cons_other by exact Hc.
    destruct (split sep t) as [|l ls] eqn:E; [congruence|].
    cbn [hd tl]. destruct ls as [|l2 ls].
    + cbn [join] in *. rewrite IH. reflexivity.
    + rewrite join_cons2 in *. rewrite <- IH. reflexivity.
Qed.

(** No piece of a split holds the separator. *)
Lemma split_no_sep sep s l : In l (split sep s) -> ~ In sep l.
Proof.
  revert l. induction s as [|c t IH]; intros l.
  - simpl. intros [<- | []]. intros [].
  - destruct (N.eq_dec c sep) as [-> | Hc].
    + rewrite split_cons_sep. intros [<- | H]; [intros [] | apply IH; exact H].
    + rewrite split_cons_other by exact Hc.
      pose proof (split_nonempty sep t) as Hne.
      destruct (split sep t) as [|l0 ls]; [congruence|]. cbn [hd tl].
      intros [<- | H].
      * intros [E | H]; [congruence|]. apply (IH l0); [left; reflexivity | exact H].
      * apply IH. right. exact H.
Qed.

(** Splitting a join of separator-free pieces gives the pieces back. *)
Lemma split_join sep ls :
  ls <> [] -> Forall (fun l => ~ In sep l) ls -> split sep (join [sep] ls) = ls.
Proof.
  induction ls as [|l ls IH]; [congruence|]. intros _ Hall.
  inversion Hall as [|? ? Hl Hls]; subst.
  destruct ls as [|l2 ls].
  - cbn [join]. rewrite <- (app_nil_r l) at 1. rewrite split_app_other by exact Hl.
    cbn. rewrite app_nil_r. reflexivity.
  - rewrite join_cons2, split_app_other by exact Hl.
    cbn [app]. rewrite split_cons_sep. cbn [hd tl]. rewrite app_nil_r.
    rewrite IH by (discriminate || exact Hls). reflexivity.
Qed.

(** The number of pieces is one more than the number of separators. *)
Lemma length_split sep s :
  length (split sep s) = S (count_occ N.eq_dec s sep).
Proof.
  induction s as [|c t IH]; [reflexivity|].
  destruct (N.eq_dec c sep) as [-> | Hc].
  - rewrite split_cons_sep, count_occ_cons_eq by reflexivity. cbn [length]. rewrite IH. reflexivity.
  - rewrite split_cons_other, count_occ_cons_neq by exact Hc.
    pose proof (split_nonempty sep t) as Hne.
    destruct (split sep t); [congruence|]. exact IH.
Qed.

Lemma contains_nil h : contains [] h = true.
Proof. destruct h; reflexivity. Qed.

(** A needle without the separator never runs across it. *)
Lemma contains_sep_cut n a sep b :
  mem sep n = false -> n <> [] ->
  contains n (a ++ sep :: b) = contains n a || contains n b.
Proof.
  intros Hs Hn. apply mem_false in Hs.
  destruct (contains n (a ++ sep :: b)) eqn:E; symmetry.
  - apply orb_true_iff.
    apply contains_app_cases in E as [E | [E | (n1 & n2 & a' & b' & -> & H1 & H2 & Ea & Eb)]].
    + left; exact E.
    + right. apply contains_spec in E as (u & v & E). destruct u as [|y u].
      * destruct n as [|z n]; [congruence|]. injection E as -> _.
        exfalso. apply Hs. left. reflexivity.
      * injection E as _ ->. apply contains_spec. exists u, v. reflexivity.
    + exfalso. destruct n2 as [|z n2]; [congruence|]. injection Eb as -> _.
      apply Hs. rewrite in_app_iff. right. left. reflexivity.
  - apply orb_false_iff. split.
    + destruct (contains n a) eqn:E'; [|reflexivity].
      rewrite (contains_app_l _ _ (sep :: b) E') in E. discriminate.
    + destruct (contains n b) eqn:E'; [|reflexivity].
      assert (X : contains n (a ++ sep :: b) = true)
        by (apply contains_app_r, (contains_app_r _ [sep]), E').
      congruence.
Qed.

Lemma contains_join n sep ls :
  mem sep n = false -> ls <> [] ->
  contains n (join [sep] ls) = existsb (contains n) ls.
Proof.
  intros Hs. destruct n as [|z n'] eqn:En.
  - intros Hne. rewrite contains_nil. destruct ls as [|l ls]; [congruence|].
    cbn [existsb]. rewrite contains_nil. reflexivity.
  - rewrite <- En in *. assert (Hn : n <> []) by (rewrite En; discriminate).
    clear En. induction ls as [|l ls IH]; [congruence|]. intros _.
    destruct ls as [|l2 ls].
    + cbn. rewrite orb_false_r. reflexivity.
    + rewrite join_cons2. cbn [existsb app]. rewrite contains_sep_cut by assumption.
      rewrite IH by discriminate. reflexivity.
Qed.

End SplitJoin.

(** ** Entity escaping *)

Section Escape.

Implicit Types (c : char) (s a b n l : str).

Lemma replace_app old new a b :
  replace old new (a ++ b) = replace old new a ++ replace old new b.
Proof. apply flat_map_app. Qed.

Lemma replace_cons old new c s :
  replace old new (c :: s) = (if c =? old then new else [c]) ++ replace old new s.
Proof. reflexivity. Qed.

Lemma html_escape_cons c s : html_escape (c :: s) = entity_of c ++ html_escape s.
Proof.
  unfold html_escape. rewrite replace_cons, !replace_app. f_equal.
  unfold entity_of.
  destruct (N.eqb_spec c 38) as [-> | H38]; [reflexivity|].
  cbn [replace flat_map app]. rewrite app_nil_r.
  destruct (N.eqb_spec c 60) as [-> | H60]; [reflexivity|].
  cbn [replace flat_map app]. rewrite app_nil_r. reflexivity.
Qed.

(** The three chained replacements amount to one pass over the input. *)
Lemma html_escape_flat_map s : html_escape s = flat_map entity_of s.
Proof.
  induction s as [|c s IH]; [reflexivity|].
  rewrite html_escape_cons, IH. reflexivity.
Qed.

Lemma html_escape_app a b : html_escape (a ++ b) = html_escape a ++ html_escape b.
Proof. rewrite !html_escape_flat_map. apply flat_map_app. Qed.

Lemma entity_of_plain c :
  c <> 38 -> c <> 60 -> c <> 62 -> entity_of c = [c].
Proof.
  intros H1 H2 H3. unfold entity_of.
  apply N.eqb_neq in H1, H2, H3. rewrite H1, H2, H3. reflexivity.
Qed.

Lemma entity_of_cases c :
  (c = 38 /\ entity_of c = lit "&amp;") \/ (c = 60 /\ entity_of c = lit "&lt;") \/
  (c = 62 /\ entity_of c = lit "&gt;") \/
  (c <> 38 /\ c <> 60 /\ c <> 62 /\ entity_of c = [c]).
Proof.
  unfold entity_of.
  destruct (N.eqb_spec c 38); [left; tauto|].
  destruct (N.eqb_spec c 60); [right; left; tauto|].
  destruct (N.eqb_spec c 62); [right; right; left; tauto|].
  right; right; right. tauto.
Qed.

Lemma entity_of_LF c : In LF (entity_of c) -> c = LF.
Proof.
  destruct (entity_of_cases c) as [[_ ->] | [[_ ->] | [[_ ->] | (_ & _ & _ & ->)]]];
    cbn; intros H; repeat (destruct H as [H | H]; try discriminate H); try contradiction.
  exact H.
Qed.

(** Escaping neither adds nor removes a line feed: it commutes with the
    split into lines. *)
Lemma split_html_escape s :
  split LF (html_escape s) = map html_escape (split LF s).
Proof.
  induction s as [|c t IH]; [reflexivity|].
  rewrite html_escape_cons.
  destruct (N.eq_dec c LF) as [-> | Hc].
  - cbn [entity_of N.eqb LF Pos.eqb lit map list_ascii_of_string app].
    change (10 :: html_escape t) with (LF :: html_escape t).
    rewrite !split_cons_sep, IH. reflexivity.
  - rewrite split_app_other by (intros H; apply Hc, entity_of_LF, H).
    rewrite split_cons_other by exact Hc. rewrite IH.
    pose proof (split_nonempty LF t) as Hne.
    destruct (split LF t) as [|l ls]; [congruence|].
    cbn [map hd tl]. rewrite html_escape_cons. reflexivity.
Qed.

(** Escaped text holds neither [<] nor [>]. *)
Lemma html_escape_no_lt s : mem 60 (html_escape s) = false.
Proof.
  induction s as [|c s IH]; [reflexivity|].
  rewrite html_escape_cons. unfold mem in *. rewrite existsb_app.
  apply orb_false_iff. split; [|exact IH].
  destruct (entity_of_cases c) as [[_ ->] | [[_ ->] | [[_ ->] | (_ & H & _ & ->)]]];
    try reflexivity.
  cbn [existsb]. rewrite orb_false_r. apply N.eqb_neq. congruence.
Qed.

Lemma html_escape_no_gt s : mem 62 (html_escape s) = false.
Proof.
  induction s as [|c s IH]; [reflexivity|].
  rewrite html_escape_cons. unfold mem in *. rewrite existsb_app.
  apply orb_false_iff. split; [|exact IH].
  destruct (entity_of_cases c) as [[_ ->] | [[_ ->] | [[_ ->] | (_ & _ & H & ->)]]];
    try reflexivity.
  cbn [existsb]. rewrite orb_false_r. apply N.eqb_neq. congruence.
Qed.

(** An occurrence in the input shows up, escaped, in the escaped text. *)
Lemma contains_html_escape n s :
  contains n s = true -> contains (html_escape n) (html_escape s) = true.
Proof.
  rewrite !contains_spec. intros (u & v & ->).
  exists (html_escape u), (html_escape v). rewrite !html_escape_app. reflexivity.
Qed.

End Escape.

(** ** The loop *)

Lemma format_loop_map lines : format_loop lines = map format_line lines.
Proof.
  unfold format_loop.
  enough (H : forall acc, fold_left (fun fl line => fl ++ [format_line line]) lines acc
                          = acc ++ map format_line lines) by apply (H []).
  induction lines as [|l lines IH]; intros acc; cbn [fold_left map].
  - rewrite app_nil_r. reflexivity.
  - rewrite IH, <- app_assoc. reflexivity.
Qed.

Lemma formatted_lines_map m :
  formatted_lines m = map (fun l => format_line (html_escape l)) (split LF m).
Proof.
  unfold formatted_lines. cbv zeta.
  rewrite format_loop_map, split_html_escape, map_map. reflexivity.
Qed.

(** ** Stripping *)

Section Strip.

Implicit Types (c x : char) (s a b : str).

Lemma lstrip_app_keep a c b :
  isspace c = false -> lstrip (a ++ c :: b) = lstrip a ++ c :: b.
Proof.
  intros Hc. induction a as [|x a IH]; cbn [app lstrip].
  - rewrite Hc. reflexivity.
  - destruct (isspace x); [exact IH | reflexivity].
Qed.

Lemma rstrip_cons_keep c s : isspace c = false -> rstrip (c :: s) = c :: rstrip s.
Proof.
  intros Hc. unfold rstrip. cbn [rev].
  rewrite lstrip_app_keep by exact Hc. rewrite rev_app_distr. reflexivity.
Qed.

(** A line that starts with a non-blank character keeps it when stripped. *)
Lemma strip_cons_keep c s : isspace c = false -> strip (c :: s) = c :: rstrip s.
Proof.
  intros Hc. unfold strip. cbn [lstrip]. rewrite Hc. apply rstrip_cons_keep, Hc.
Qed.

Lemma lstrip_In x s : In x s -> isspace x = false -> In x (lstrip s).
Proof.
  intros Hx Hs. induction s as [|c s IH]; [contradiction|].
  cbn [lstrip]. destruct (isspace c) eqn:E; [|exact Hx].
  destruct Hx as [-> | Hx]; [congruence | apply IH, Hx].
Qed.

(** Stripping removes blank characters only. *)
Lemma strip_In x s : In x s -> isspace x = false -> In x (strip s).
Proof.
  intros Hx Hs. unfold strip, rstrip. apply in_rev.
  rewrite rev_involutive. apply lstrip_In; [|exact Hs].
  apply in_rev. rewrite rev_involutive. apply lstrip_In; assumption.
Qed.

Lemma str_eqb_eq a b : str_eqb a b = true <-> a = b.
Proof.
  revert b. induction a as [|x a IH]; intros [|y b]; cbn [str_eqb];
    try (split; [discriminate | congruence]); [tauto|].
  rewrite andb_true_iff, N.eqb_eq, IH. split; [intros [-> ->]; reflexivity|].
  intros E. injection E as -> ->. tauto.
Qed.

Lemma truthy_false s : truthy s = false <-> s = [].
Proof. destruct s; cbn; split; congruence. Qed.

End Strip.

(** ** One line *)

Section FormatLine.

Implicit Types (c : char) (s n line rest : str).

Lemma In_slice_from c k s : In c (slice_from k s) -> In c s.
Proof.
  unfold slice_from. intros H. rewrite <- (firstn_skipn k s), in_app_iff. right. exact H.
Qed.

Lemma contains_slice_from n k s :
  contains n (slice_from k s) = true -> contains n s = true.
Proof.
  unfold slice_from. intros H. rewrite <- (firstn_skipn k s). apply contains_app_r, H.
Qed.

(** The seven outcomes of [format_line], one per branch. *)
Lemma format_line_cases line :
  (startswith (lit "#### ") line = true /\
     format_line line = lit "<h4>" ++ slice_from 5 line ++ lit "</h4>") \/
  (startswith (lit "### ") line = true /\
     format_line line = lit "<h3>" ++ slice_from 4 line ++ lit "</h3>") \/
  (startswith (lit "## ") line = true /\
     format_line line = lit "<h2>" ++ slice_from 3 line ++ lit "</h2>") \/
  (startswith (lit "# ") line = true /\
     format_line line = lit "<h1>" ++ slice_from 2 line ++ lit "</h1>") \/
  (strip line = lit "---" /\ format_line line = lit "<hr>") \/
  (strip line <> [] /\ format_line line = lit "<p>" ++ line ++ lit "</p>") \/
  (strip line = [] /\ format_line line = lit "<br>").
Proof.
  unfold format_line.
  destruct (startswith (lit "#### ") line); [left; tauto|].
  destruct (startswith (lit "### ") line); [right; left; tauto|].
  destruct (startswith (lit "## ") line); [right; right; left; tauto|].
  destruct (startswith (lit "# ") line); [right; right; right; left; tauto|].
  destruct (str_eqb (strip line) (lit "---")) eqn:E.
  { apply str_eqb_eq in E. tauto. }
  destruct (truthy (strip line)) eqn:T.
  - right; right; right; right; right; left. split; [|reflexivity].
    intros H. rewrite H in T. discriminate.
  - apply truthy_false in T. tauto.
Qed.

(** A rendered line holds no line feed unless the line did. *)
Lemma format_line_no_LF line : ~ In LF line -> ~ In LF (format_line line).
Proof.
  intros Hl H.
  destruct (format_line_cases line)
    as [[_ E] | [[_ E] | [[_ E] | [[_ E] | [[_ E] | [[_ E] | [_ E]]]]]]];
    rewrite E in H; rewrite ?in_app_iff in H;
    repeat match goal with
           | H : _ \/ _ |- _ => destruct H as [H | H]
           | H : In _ (slice_from _ _) |- _ => apply In_slice_from in H
           end;
    try contradiction;
    try (vm_compute in H; repeat (destruct H as [H | H]; try discriminate H); contradiction).
Qed.

End FormatLine.

(** ** Where a substring of the result can come from *)

Section Occurrences.

Implicit Types (c : char) (s n line rest t h : str).

Lemma mem_tl c n : mem c n = false -> mem c (tl n) = false.
Proof.
  rewrite !mem_false. intros H Hc. apply H. destruct n; [exact Hc | right; exact Hc].
Qed.

Lemma In_removelast c n : In c (removelast n) -> In c n.
Proof.
  induction n as [|x n IH]; [intros []|]. cbn [removelast].
  destruct n as [|y n]; [intros []|].
  intros [-> | H]; [left; reflexivity | right; apply IH, H].
Qed.

Lemma mem_removelast c n : mem c n = false -> mem c (removelast n) = false.
Proof. rewrite !mem_false. intros H Hc. apply H, In_removelast, Hc. Qed.

(** A needle with a character that [h] lacks does not occur in [h]. *)
Lemma contains_foreign n h :
  existsb (fun c => negb (mem c h)) n = true -> contains n h = false.
Proof.
  intros H. apply existsb_exists in H as (c & Hc & Hm).
  destruct (contains n h) eqn:E; [|reflexivity].
  apply negb_true_iff, mem_false in Hm. exfalso. apply Hm. eapply contains_In; eassumption.
Qed.

(** Text between an opening piece that ends with [>] and a closing piece
    that starts with [<]. *)
Lemma contains_wrap n o x cl :
  mem 62 (removelast n) = false -> mem 60 (tl n) = false ->
  contains n ((o ++ [62]) ++ x ++ 60 :: cl)
  = contains n (o ++ [62]) || contains n x || contains n (60 :: cl).
Proof.
  intros Hgt Hlt. rewrite contains_app_last by exact Hgt.
  rewrite (contains_app_first n x 60 cl) by exact Hlt. apply orb_assoc.
Qed.

(** An occurrence that cannot start inside the prefix [p] lies in the rest. *)
Lemma contains_skip_prefix c n p rest :
  mem c p = false ->
  contains (c :: n) (p ++ rest) = true -> contains (c :: n) rest = true.
Proof.
  intros Hc H. apply mem_false in Hc.
  apply contains_app_cases in H as [H | [H | (n1 & n2 & a' & b' & E & H1 & _ & -> & _)]].
  - exfalso. apply Hc. eapply contains_In; [exact H | left; reflexivity].
  - exact H.
  - exfalso. apply Hc. destruct n1 as [|z n1]; [congruence|].
    injection E as -> _. rewrite in_app_iff. right. left. reflexivity.
Qed.

(** What a line holds, its rendering holds too, for a needle whose first
    character is neither blank, [#] nor [-]. *)
Lemma format_line_keeps c n line :
  isspace c = false -> c <> 35 -> c <> 45 ->
  contains (c :: n) line = true -> contains (c :: n) (format_line line) = true.
Proof.
  intros Hsp H35 H45 H.
  assert (Hmark : forall p, forallb (fun x => (x =? 35) || (x =? 32)) p = true -> mem c p = false).
  { intros p Hp. apply mem_false. intros Hin.
    rewrite forallb_forall in Hp. specialize (Hp _ Hin).
    apply orb_true_iff in Hp as [Hp | Hp]; apply N.eqb_eq in Hp; subst c;
      [congruence | discriminate Hsp]. }
  assert (Hhead : forall p, forallb (fun x => (x =? 35) || (x =? 32)) p = true ->
            startswith p line = true -> contains (c :: n) (slice_from (length p) line) = true).
  { intros p Hp Hs. apply startswith_slice in Hs. rewrite Hs in H.
    eapply contains_skip_prefix; [apply Hmark, Hp | exact H]. }
  destruct (format_line_cases line)
    as [[S E] | [[S E] | [[S E] | [[S E] | [[S E] | [[S E] | [S E]]]]]]]; rewrite E.
  - apply contains_app_r, contains_app_l. apply (Hhead (lit "#### ")); [reflexivity | exact S].
  - apply contains_app_r, contains_app_l. apply (Hhead (lit "### ")); [reflexivity | exact S].
  - apply contains_app_r, contains_app_l. apply (Hhead (lit "## ")); [reflexivity | exact S].
  - apply contains_app_r, contains_app_l. apply (Hhead (lit "# ")); [reflexivity | exact S].
  - exfalso. assert (Hin : In c (strip line)).
    { apply strip_In; [|exact Hsp]. eapply contains_In; [exact H | left; reflexivity]. }
    rewrite S in Hin. vm_compute in Hin.
    destruct Hin as [Hin | [Hin | [Hin | []]]]; symmetry in Hin; contradiction.
  - apply contains_app_r, contains_app_l, H.
  - exfalso. assert (Hin : In c (strip line)).
    { apply strip_In; [|exact Hsp]. eapply contains_In; [exact H | left; reflexivity]. }
    rewrite S in Hin. exact Hin.
Qed.

(** What a rendering holds, the line held already, for a needle that no tag
    can contribute to: it has a character foreign to every tag, [>] at most
    at its end and [<] at most at its start. *)
Lemma format_line_reflects n line :
  existsb (fun c => negb (mem c tag_chars)) n = true ->
  mem 62 (removelast n) = false -> mem 60 (tl n) = false ->
  contains n (format_line line) = true -> contains n line = true.
Proof.
  intros Hf Hgt Hlt H.
  assert (Htag : forall tag, forallb (fun x => mem x tag_chars) tag = true ->
                             contains n tag = false).
  { intros tag Ht. apply contains_foreign.
    apply existsb_exists in Hf as (c & Hc & Hm). apply existsb_exists.
    exists c. split; [exact Hc|]. apply negb_true_iff. apply negb_true_iff in Hm.
    apply mem_false. intros Hin. rewrite forallb_forall in Ht.
    rewrite (Ht _ Hin) in Hm. discriminate. }
  assert (Hwrap : forall o x cl,
            forallb (fun x => mem x tag_chars) (o ++ [62]) = true ->
            forallb (fun x => mem x tag_chars) (60 :: cl) = true ->
            contains n ((o ++ [62]) ++ x ++ 60 :: cl) = true -> contains n x = true).
  { intros o x cl Ho Hc Hx. rewrite contains_wrap in Hx by assumption.
    rewrite (Htag _ Ho), (Htag _ Hc), orb_false_r in Hx. exact Hx. }
  destruct (format_line_cases line)
    as [[S E] | [[S E] | [[S E] | [[S E] | [[S E] | [[S E] | [S E]]]]]]]; rewrite E in H.
  - apply (contains_slice_from _ 5), (Hwrap (lit "<h4") _ (lit "/h4>")); [reflexivity.. | exact H].
  - apply (contains_slice_from _ 4), (Hwrap (lit "<h3") _ (lit "/h3>")); [reflexivity.. | exact H].
  - apply (contains_slice_from _ 3), (Hwrap (lit "<h2") _ (lit "/h2>")); [reflexivity.. | exact H].
  - apply (contains_slice_from _ 2), (Hwrap (lit "<h1") _ (lit "/h1>")); [reflexivity.. | exact H].
  - rewrite Htag in H by reflexivity. discriminate.
  - apply (Hwrap (lit "<p") _ (lit "/p>")); [reflexivity.. | exact H].
  - rewrite Htag in H by reflexivity. discriminate.
Qed.

End Occurrences.

(** ** The whole document *)

Section Document.

Implicit Types (s n t h m : str).

Lemma contains_frame n dh t dm h dt :
  mem 62 (removelast n) = false -> mem 60 (tl n) = false -> mem LF n = false ->
  contains n ((dh ++ [62]) ++ t ++ ((60 :: dm) ++ [LF]) ++ h ++ LF :: dt)
  = contains n (dh ++ [62]) || contains n t || contains n ((60 :: dm) ++ [LF])
    || contains n h || contains n (LF :: dt).
Proof.
  intros Hgt Hlt Hlf.
  rewrite contains_app_last by exact Hgt.
  change (t ++ ((60 :: dm) ++ [LF]) ++ h ++ LF :: dt)
    with (t ++ 60 :: ((dm ++ [LF]) ++ h ++ LF :: dt)).
  rewrite (contains_app_first n t 60) by exact Hlt.
  change (60 :: (dm ++ [LF]) ++ h ++ LF :: dt)
    with (((60 :: dm) ++ [LF]) ++ h ++ LF :: dt).
  rewrite (contains_app_last n (60 :: dm) LF) by (apply mem_removelast, Hlf).
  rewrite (contains_app_first n h LF dt) by (apply mem_tl, Hlf).
  rewrite !orb_assoc. reflexivity.
Qed.

(** A substring of the document that is free of line feeds, with [>] at most
    at its end and [<] at most at its start, lies in one of the five parts
    of the template. *)
Lemma contains_template n t h :
  mem 62 (removelast n) = false -> mem 60 (tl n) = false -> mem LF n = false ->
  contains n (template t h)
  = contains n doc_head || contains n t || contains n doc_mid
    || contains n h || contains n doc_tail.
Proof.
  intros Hgt Hlt Hlf. unfold template.
  assert (E1 : doc_head = removelast doc_head ++ [62]) by (vm_compute; reflexivity).
  assert (E2 : doc_mid = (60 :: removelast (tl doc_mid)) ++ [LF]) by (vm_compute; reflexivity).
  assert (E3 : doc_tail = LF :: tl doc_tail) by (vm_compute; reflexivity).
  rewrite E1, E2, E3. apply contains_frame; assumption.
Qed.

Lemma formatted_lines_nonempty m : formatted_lines m <> [].
Proof.
  rewrite formatted_lines_map. pose proof (split_nonempty LF m).
  destruct (split LF m); [congruence | discriminate].
Qed.

(** A line-feed-free substring of the body lies in one block. *)
Lemma contains_body n m :
  mem LF n = false ->
  contains n (join [LF] (formatted_lines m))
  = existsb (fun l => contains n (format_line (html_escape l))) (split LF m).
Proof.
  intros Hlf. rewrite contains_join by (exact Hlf || apply formatted_lines_nonempty).
  rewrite formatted_lines_map. induction (split LF m) as [|l ls IH]; [reflexivity|].
  cbn [map existsb]. rewrite IH. reflexivity.
Qed.

(** A line-feed-free substring of the text lies in one line. *)
Lemma contains_lines n s :
  mem LF n = false -> contains n s = existsb (contains n) (split LF s).
Proof.
  intros Hlf. rewrite <- (join_split LF s) at 1.
  apply contains_join; [exact Hlf | apply split_nonempty].
Qed.

(** The body holds what the escaped text holds. *)
Lemma body_keeps c n m :
  isspace c = false -> c <> 35 -> c <> 45 -> mem LF (c :: n) = false ->
  contains (c :: n) (html_escape m) = true ->
  contains (c :: n) (join [LF] (formatted_lines m)) = true.
Proof.
  intros Hsp H35 H45 Hlf H. rewrite contains_body by exact Hlf.
  rewrite contains_lines, split_html_escape in H by exact Hlf.
  apply existsb_exists in H as (l' & Hin & Hl'). apply in_map_iff in Hin as (l & <- & Hin).
  apply existsb_exists. exists l. split; [exact Hin|].
  apply format_line_keeps; assumption.
Qed.

(** The body holds nothing that the escaped text does not hold, tags apart. *)
Lemma body_reflects n m :
  existsb (fun c => negb (mem c tag_chars)) n = true ->
  mem 62 (removelast n) = false -> mem 60 (tl n) = false -> mem LF n = false ->
  contains n (join [LF] (formatted_lines m)) = true ->
  contains n (html_escape m) = true.
Proof.
  intros Hf Hgt Hlt Hlf H. rewrite contains_body in H by exact Hlf.
  apply existsb_exists in H as (l & Hin & Hl).
  rewrite contains_lines, split_html_escape by exact Hlf.
  apply existsb_exists. exists (html_escape l). split; [apply in_map, Hin|].
  apply format_line_reflects; assumption.
Qed.

Lemma contains_mem c n s : contains n s = true -> mem c n = true -> mem c s = true.
Proof. rewrite !mem_In. apply contains_In. Qed.

End Document.

(** ** Blocks and lines *)

(** C3, as the code has it. For every title [t], the empty markdown text has
    one line, the empty one, so [formatted_lines] holds exactly one block,
    the line break, and the document is the template around it. *)
Theorem C3_empty_input_one_break (t : str) :
  formatted_lines [] = [lit "<br>"] /\
  markdown_to_html [] t = template t (lit "<br>") /\
  contains (lit "<br>") (markdown_to_html [] t) = true.
Proof.
  split; [reflexivity|]. split; [reflexivity|].
  unfold markdown_to_html, template. cbv zeta.
  change (join [LF] (formatted_lines [])) with (lit "<br>").
  apply contains_app_r, contains_app_r, contains_app_r, contains_app_l, contains_self.
Qed.

(** C3 as stated fails: the body of the document for the empty text is not
    a join of zero blocks. *)
Lemma C3_empty_input_not_blockless :
  formatted_lines [] <> [] /\
  markdown_to_html [] default_title <> template default_title (join [LF] []).
Proof.
  split; [discriminate|]. intros H.
  apply (f_equal (contains (lit "<br>"))) in H. vm_compute in H. discriminate.
Qed.

(** C4. A line that starts with the marker [#### ] is rendered as a level-4
    heading. For the input [#### Deep] the only block is [<h4>Deep</h4>],
    every document for it contains that block, it contains [<h1>] exactly
    when the title given by the caller does, and with the default title it
    contains no [<h1>]. *)
Theorem C4_heading_priority :
  (forall rest, format_line (lit "#### " ++ rest) = lit "<h4>" ++ rest ++ lit "</h4>") /\
  formatted_lines (lit "#### Deep") = [lit "<h4>Deep</h4>"] /\
  (forall t,
     contains (lit "<h4>Deep</h4>") (markdown_to_html (lit "#### Deep") t) = true /\
     contains (lit "<h1>") (markdown_to_html (lit "#### Deep") t) = contains (lit "<h1>") t) /\
  contains (lit "<h1>") (markdown_to_html (lit "#### Deep") default_title) = false.
Proof.
  split; [intros rest; reflexivity|]. split; [reflexivity|]. split; [|reflexivity].
  intros t. unfold markdown_to_html. cbv zeta.
  change (join [LF] (formatted_lines (lit "#### Deep"))) with (lit "<h4>Deep</h4>"). split.
  - unfold template.
    apply contains_app_r, contains_app_r, contains_app_r, contains_app_l, contains_self.
  - rewrite contains_template by reflexivity.
    replace (contains (lit "<h1>") doc_head) with false by (vm_compute; reflexivity).
    replace (contains (lit "<h1>") doc_mid) with false by (vm_compute; reflexivity).
    replace (contains (lit "<h1>") doc_tail) with false by (vm_compute; reflexivity).
    replace (contains (lit "<h1>") (lit "<h4>Deep</h4>")) with false by (vm_compute; reflexivity).
    rewrite !orb_false_r. reflexivity.
Qed.

(** C7. The document starts with a fixed text that holds no [<title>], and
    goes on with [<title>], the title character for character, [</title>]
    and a rest that does not depend on the title. A title with [<], [>] and
    [&] shows up unchanged, while the same text in the body is escaped. *)
Theorem C7_title_verbatim :
  (exists pre,
     contains (lit "<title>") pre = false /\
     forall m, exists post, forall t,
       markdown_to_html m t = pre ++ lit "<title>" ++ t ++ lit "</title>" ++ post) /\
  (let x := lit "a<b>&c" in
   contains (lit "<title>a<b>&c</title>") (markdown_to_html x x) = true /\
   contains (lit "<p>a&lt;b&gt;&amp;c</p>") (markdown_to_html x x) = true).
Proof.
  split; [|split; vm_compute; reflexivity].
  exists (firstn (length doc_head - 7) doc_head). split; [vm_compute; reflexivity|].
  intros m. exists (skipn 8 doc_mid ++ join [LF] (formatted_lines m) ++ doc_tail). intros t.
  unfold markdown_to_html, template. cbv zeta.
  assert (E1 : doc_head = firstn (length doc_head - 7) doc_head ++ lit "<title>")
    by (vm_compute; reflexivity).
  assert (E2 : doc_mid = lit "</title>" ++ skipn 8 doc_mid) by (vm_compute; reflexivity).
  rewrite E1 at 1. rewrite E2 at 1. rewrite <- !app_assoc. reflexivity.
Qed.

(** C10. A line that begins with five [#] matches none of the four heading
    markers and is rendered as a paragraph holding the whole line, hashes
    included; the same holds for the escaped line, and the input [##### x]
    gives the single block [<p>##### x</p>]. *)
Theorem C10_five_hashes_paragraph (rest : str) :
  let line := lit "#####" ++ rest in
  startswith (lit "#### ") line = false /\ startswith (lit "### ") line = false /\
  startswith (lit "## ") line = false /\ startswith (lit "# ") line = false /\
  format_line line = lit "<p>" ++ line ++ lit "</p>" /\
  format_line (html_escape line) = lit "<p>" ++ html_escape line ++ lit "</p>" /\
  formatted_lines (lit "##### x") = [lit "<p>##### x</p>"].
Proof.
  assert (F : forall r, format_line (lit "#####" ++ r) = lit "<p>" ++ (lit "#####" ++ r) ++ lit "</p>").
  { intros r. unfold format_line.
    change (lit "#####" ++ r) with (35 :: (lit "####" ++ r)).
    change (startswith (lit "#### ") (35 :: lit "####" ++ r)) with false.
    change (startswith (lit "### ") (35 :: lit "####" ++ r)) with false.
    change (startswith (lit "## ") (35 :: lit "####" ++ r)) with false.
    change (startswith (lit "# ") (35 :: lit "####" ++ r)) with false.
    rewrite strip_cons_keep by reflexivity. reflexivity. }
  cbv zeta. repeat split; try reflexivity.
  - apply F.
  - rewrite html_escape_app. change (html_escape (lit "#####")) with (lit "#####"). apply F.
Qed.

(** ** Escaped text, seen through [contains] *)

Section EscapedOccurrences.

Implicit Types (c x : char) (s n m t r p : str).

Lemma plain_spec c : plain c = true <-> c <> 38 /\ c <> 60 /\ c <> 62.
Proof.
  unfold plain. rewrite !andb_true_iff, !negb_true_iff, !N.eqb_neq. tauto.
Qed.

Lemma contains_cons_other x n c r :
  x <> c -> contains (x :: n) (c :: r) = contains (x :: n) r.
Proof.
  intros H. apply N.eqb_neq in H. cbn [contains startswith]. rewrite H. reflexivity.
Qed.

Lemma startswith_html_escape p m :
  forallb plain p = true -> startswith p (html_escape m) = startswith p m.
Proof.
  revert m. induction p as [|x p IH]; intros m Hp; [reflexivity|].
  cbn [forallb] in Hp. apply andb_true_iff in Hp as [Hx Hp]. apply plain_spec in Hx.
  destruct m as [|c m]; [reflexivity|]. rewrite html_escape_cons.
  destruct (entity_of_cases c) as [[-> ->] | [[-> ->] | [[-> ->] | (H1 & H2 & H3 & ->)]]].
  - cbn [lit map list_ascii_of_string app startswith].
    replace (x =? N_of_ascii "&") with false by (symmetry; apply N.eqb_neq; tauto).
    replace (x =? 38) with false by (symmetry; apply N.eqb_neq; tauto). reflexivity.
  - cbn [lit map list_ascii_of_string app startswith].
    replace (x =? N_of_ascii "&") with false by (symmetry; apply N.eqb_neq; tauto).
    replace (x =? 60) with false by (symmetry; apply N.eqb_neq; tauto). reflexivity.
  - cbn [lit map list_ascii_of_string app startswith].
    replace (x =? N_of_ascii "&") with false by (symmetry; apply N.eqb_neq; tauto).
    replace (x =? 62) with false by (symmetry; apply N.eqb_neq; tauto). reflexivity.
  - cbn [app startswith]. rewrite IH by exact Hp. reflexivity.
Qed.

(** In escaped text, an occurrence that starts with [&] starts an entity. *)
Lemma contains_entity_step n c r :
  contains (38 :: n) (entity_of c ++ r)
  = startswith (38 :: n) (entity_of c ++ r) || contains (38 :: n) r.
Proof.
  destruct (entity_of_cases c) as [[_ ->] | [[_ ->] | [[_ ->] | (H1 & _ & _ & ->)]]].
  - change (lit "&amp;" ++ r) with (38 :: 97 :: 109 :: 112 :: 59 :: r).
    rewrite contains_unfold. rewrite !contains_cons_other by discriminate. reflexivity.
  - change (lit "&lt;" ++ r) with (38 :: 108 :: 116 :: 59 :: r).
    rewrite contains_unfold. rewrite !contains_cons_other by discriminate. reflexivity.
  - change (lit "&gt;" ++ r) with (38 :: 103 :: 116 :: 59 :: r).
    rewrite contains_unfold. rewrite !contains_cons_other by discriminate. reflexivity.
  - cbn [app]. rewrite contains_unfold. reflexivity.
Qed.

(** The escaped text holds [&amp;] exactly when the text holds [&]. *)
Lemma html_escape_amp m : contains (lit "&amp;") (html_escape m) = mem 38 m.
Proof.
  change (lit "&amp;") with [38; 97; 109; 112; 59].
  induction m as [|c m IH]; [reflexivity|].
  rewrite html_escape_cons, contains_entity_step, IH.
  change (mem 38 (c :: m)) with ((38 =? c) || mem 38 m). f_equal.
  destruct (entity_of_cases c) as [[-> ->] | [[-> ->] | [[-> ->] | (H1 & _ & _ & ->)]]];
    try reflexivity.
  cbn [app startswith]. destruct (N.eqb_spec 38 c); [congruence | reflexivity].
Qed.

(** The escaped text holds [&amp;amp;] exactly when the text itself spells
    [&amp;]. *)
Lemma html_escape_amp_amp m :
  contains (lit "&amp;amp;") (html_escape m) = contains (lit "&amp;") m.
Proof.
  change (lit "&amp;amp;") with (38 :: lit "amp;amp;").
  induction m as [|c m IH]; [reflexivity|].
  rewrite html_escape_cons, contains_entity_step, IH.
  rewrite (contains_unfold (lit "&amp;") (c :: m)). f_equal.
  destruct (entity_of_cases c) as [[-> ->] | [[-> ->] | [[-> ->] | (H1 & _ & _ & ->)]]];
    try reflexivity.
  - change (startswith (38 :: lit "amp;amp;") (lit "&amp;" ++ html_escape m))
      with (startswith (lit "amp;") (html_escape m)).
    rewrite startswith_html_escape by reflexivity. reflexivity.
  - cbn [app startswith]. change (lit "&amp;") with [38; 97; 109; 112; 59].
    cbn [startswith]. destruct (N.eqb_spec 38 c); [congruence | reflexivity].
Qed.

Lemma bool_eq_iff (a b : bool) : (a = true <-> b = true) -> a = b.
Proof. destruct a, b; intuition congruence. Qed.

(** Such a needle is in the document exactly when it is in the title or in
    the escaped text. *)
Lemma contains_document n m t :
  inline_needle n = true ->
  contains n (markdown_to_html m t) = contains n t || contains n (html_escape m).
Proof.
  destruct n as [|c n']; [discriminate|]. unfold inline_needle.
  rewrite !andb_true_iff, !negb_true_iff.
  intros (((((((((Hsp & H35) & H45) & Hf) & Hgt) & Hlt) & Hlf) & Hh) & Hm) & Ht).
  apply N.eqb_neq in H35, H45.
  unfold markdown_to_html. cbv zeta.
  rewrite contains_template by assumption. rewrite Hh, Hm, Ht, !orb_false_r.
  cbn [orb]. f_equal. apply bool_eq_iff. split.
  - apply body_reflects; assumption.
  - apply body_keeps; assumption.
Qed.

End EscapedOccurrences.

(** C2. The three replacements together act as one pass over the whole
    input, each character escaped once ([&] to [&amp;], [<] to [&lt;], [>]
    to [&gt;], anything else unchanged): an [&] anywhere in the input is
    replaced by exactly [&amp;], the text around it being escaped on its
    own; and the lines are cut from the escaped text. So a lone [&] becomes
    [&amp;]; the document holds [&amp;] as soon as the input holds an [&];
    and it holds [&amp;amp;] only where the title holds it or the input
    itself spells [&amp;]. *)
Theorem C2_escape_exactly_once (m t : str) :
  html_escape m = flat_map entity_of m /\
  (forall u v, html_escape (u ++ [38] ++ v) = html_escape u ++ lit "&amp;" ++ html_escape v) /\
  html_escape (lit "&") = lit "&amp;" /\
  formatted_lines m = map format_line (split LF (html_escape m)) /\
  contains (lit "&amp;") (markdown_to_html m t)
    = contains (lit "&amp;") t || mem 38 m /\
  contains (lit "&amp;amp;") (markdown_to_html m t)
    = contains (lit "&amp;amp;") t || contains (lit "&amp;") m.
Proof.
  split; [apply html_escape_flat_map|].
  split; [intros u v; rewrite !html_escape_app; reflexivity|].
  split; [reflexivity|].
  split; [unfold formatted_lines; cbv zeta; apply format_loop_map|]. split.
  - rewrite contains_document by reflexivity. rewrite html_escape_amp. reflexivity.
  - rewrite contains_document by reflexivity. rewrite html_escape_amp_amp. reflexivity.
Qed.

(** C5, as the code has it. For every markdown text that holds [<script>]
    and every title, the document holds [&lt;script&gt;], its body holds no
    [<script>], and the whole document holds [<script>] exactly when the
    title, which is not escaped, holds it. *)
Theorem C5_script_escaped_in_body (m t : str) :
  contains (lit "<script>") m = true ->
  contains (lit "&lt;script&gt;") (markdown_to_html m t) = true /\
  contains (lit "<script>") (join [LF] (formatted_lines m)) = false /\
  contains (lit "<script>") (markdown_to_html m t) = contains (lit "<script>") t.
Proof.
  intros H.
  assert (Hno : contains (lit "<script>") (html_escape m) = false).
  { destruct (contains (lit "<script>") (html_escape m)) eqn:E; [|reflexivity].
    apply (contains_mem 60) in E; [|reflexivity].
    rewrite html_escape_no_lt in E. discriminate. }
  split; [|split].
  - rewrite contains_document by reflexivity.
    apply contains_html_escape in H.
    change (html_escape (lit "<script>")) with (lit "&lt;script&gt;") in H.
    rewrite H. apply orb_true_r.
  - destruct (contains (lit "<script>") (join [LF] (formatted_lines m))) eqn:E; [|reflexivity].
    apply body_reflects in E; [congruence | reflexivity..].
  - rewrite contains_document by reflexivity. rewrite Hno. apply orb_false_r.
Qed.

Lemma C5_script_escaped_in_body_witness :
  let m := lit "# <script>alert(1)</script>" in
  contains (lit "<script>") m = true /\
  contains (lit "&lt;script&gt;") (markdown_to_html m default_title) = true /\
  contains (lit "<script>") (join [LF] (formatted_lines m)) = false /\
  contains (lit "<script>") (markdown_to_html m default_title)
  = contains (lit "<script>") default_title.
Proof.
  cbv zeta. split; [reflexivity|].
  apply (C5_script_escaped_in_body (lit "# <script>alert(1)</script>") default_title).
  reflexivity.
Defined.

(** C5 as stated fails: a title that holds [<script>] puts it, unescaped,
    into the document. *)
Lemma C5_script_in_title :
  ~ (forall m t, contains (lit "<script>") m = true ->
       contains (lit "&lt;script&gt;") (markdown_to_html m t) = true /\
       contains (lit "<script>") (markdown_to_html m t) = false).
Proof.
  intros H. destruct (H (lit "<script>") (lit "<script>")) as [_ H2]; [reflexivity|].
  vm_compute in H2. discriminate.
Qed.

Section Classification.

Implicit Types (line p : str) (k : kind).

Lemma format_line_render line : format_line line = render (classify line) line.
Proof.
  unfold format_line, classify.
  repeat match goal with |- context [if ?b then _ else _] => destruct b end; reflexivity.
Qed.

Lemma marker_strip p line :
  startswith (35 :: p) line = true -> exists r, strip line = 35 :: r.
Proof.
  intros H. apply startswith_spec in H as [r ->]. cbn [app].
  rewrite strip_cons_keep by reflexivity. eexists. reflexivity.
Qed.

Lemma marker_not_rule p line :
  startswith (35 :: p) line = true ->
  str_eqb (strip line) (lit "---") = false /\ truthy (strip line) = true.
Proof.
  intros H. apply marker_strip in H as [r ->]. split; reflexivity.
Qed.

Lemma rule_not_blank line :
  str_eqb (strip line) (lit "---") = true -> truthy (strip line) = true.
Proof. intros H. apply str_eqb_eq in H. rewrite H. reflexivity. Qed.

Lemma markers_exclusive line :
  (startswith (lit "#### ") line = true ->
     startswith (lit "### ") line = false /\ startswith (lit "## ") line = false /\
     startswith (lit "# ") line = false) /\
  (startswith (lit "### ") line = true ->
     startswith (lit "## ") line = false /\ startswith (lit "# ") line = false) /\
  (startswith (lit "## ") line = true -> startswith (lit "# ") line = false).
Proof.
  split; [|split]; intros H; apply startswith_spec in H as [r ->]; repeat split.
Qed.

(** A line is of exactly the kind the loop body picks. *)
Lemma matches_classify line k : matches k line = true <-> k = classify line.
Proof.
  destruct (markers_exclusive line) as (X4 & X3 & X2).
  pose proof (marker_not_rule (lit "### ") line) as R4.
  pose proof (marker_not_rule (lit "## ") line) as R3.
  pose proof (marker_not_rule (lit "# ") line) as R2.
  pose proof (marker_not_rule (lit " ") line) as R1.
  pose proof (rule_not_blank line) as RB.
  change (35 :: lit "### ") with (lit "#### ") in R4.
  change (35 :: lit "## ") with (lit "### ") in R3.
  change (35 :: lit "# ") with (lit "## ") in R2.
  change (35 :: lit " ") with (lit "# ") in R1.
  assert (B : forall b : bool, b = true \/ b = false) by (intros []; tauto).
  unfold classify.
  destruct (B (startswith (lit "#### ") line)) as [E4 | E4]; rewrite E4.
  { destruct (X4 E4) as (E3 & E2 & E1), (R4 E4) as [Er Et].
    destruct k; cbn [matches]; rewrite ?E4, ?E3, ?E2, ?E1, ?Er, ?Et; cbn; split; congruence. }
  destruct (B (startswith (lit "### ") line)) as [E3 | E3]; rewrite E3.
  { destruct (X3 E3) as (E2 & E1), (R3 E3) as [Er Et].
    destruct k; cbn [matches]; rewrite ?E4, ?E3, ?E2, ?E1, ?Er, ?Et; cbn; split; congruence. }
  destruct (B (startswith (lit "## ") line)) as [E2 | E2]; rewrite E2.
  { pose proof (X2 E2) as E1. destruct (R2 E2) as [Er Et].
    destruct k; cbn [matches]; rewrite ?E4, ?E3, ?E2, ?E1, ?Er, ?Et; cbn; split; congruence. }
  destruct (B (startswith (lit "# ") line)) as [E1 | E1]; rewrite E1.
  { destruct (R1 E1) as [Er Et].
    destruct k; cbn [matches]; rewrite ?E4, ?E3, ?E2, ?E1, ?Er, ?Et; cbn; split; congruence. }
  destruct (B (str_eqb (strip line) (lit "---"))) as [Er | Er]; rewrite Er.
  { pose proof (RB Er) as Et.
    destruct k; cbn [matches]; rewrite ?E4, ?E3, ?E2, ?E1, ?Er, ?Et; cbn; split; congruence. }
  destruct (B (truthy (strip line))) as [Et | Et]; rewrite Et;
    destruct k; cbn [matches]; rewrite ?E4, ?E3, ?E2, ?E1, ?Er, ?Et; cbn; split; congruence.
Qed.

End Classification.

(** ** Texts put together *)

Section Concatenation.

Implicit Types (a b : str) (xs ys : list str).

Lemma split_app_sep sep a b :
  split sep (a ++ sep :: b) = split sep a ++ split sep b.
Proof.
  induction a as [|c a IH].
  - cbn [app]. rewrite split_cons_sep. reflexivity.
  - cbn [app]. destruct (N.eq_dec c sep) as [-> | Hc].
    + rewrite !split_cons_sep, IH. reflexivity.
    + rewrite !split_cons_other by exact Hc. rewrite IH.
      pose proof (split_nonempty sep a) as Hne.
      destruct (split sep a); [congruence | reflexivity].
Qed.

Lemma join_app (sp : str) xs ys :
  xs <> [] -> ys <> [] -> join sp (xs ++ ys) = join sp xs ++ sp ++ join sp ys.
Proof.
  intros Hx Hy. induction xs as [|x xs IH]; [congruence|].
  destruct xs as [|x2 xs].
  - cbn [app]. destruct ys; [congruence | reflexivity].
  - change ((x :: x2 :: xs) ++ ys) with (x :: x2 :: (xs ++ ys)).
    rewrite !join_cons2. change (x2 :: xs ++ ys) with ((x2 :: xs) ++ ys).
    rewrite IH by discriminate. rewrite <- !app_assoc. reflexivity.
Qed.

End Concatenation.

(** ** The lines of the document *)

Lemma head_lines_eq (t : str) :
  exists x, doc_mid = x ++ LF :: lit "<body>" ++ [LF] /\
  head_lines t = split LF (doc_head ++ t ++ x) ++ [lit "<body>"].
Proof.
  exists (firstn (length doc_mid - 8) doc_mid).
  set (x := firstn (length doc_mid - 8) doc_mid).
  assert (Hx : doc_mid = x ++ LF :: lit "<body>" ++ [LF]) by (vm_compute; reflexivity).
  split; [exact Hx|]. unfold head_lines. rewrite Hx.
  rewrite !app_assoc, split_app_sep, split_app_sep, <- !app_assoc.
  change (split LF []) with [@nil N].
  change (split LF (lit "<body>")) with [lit "<body>"].
  rewrite !app_assoc, removelast_last, <- !app_assoc. reflexivity.
Qed.

Lemma split_document (t body : str) :
  split LF (template t body)
  = head_lines t ++ split LF body ++ [lit "</body>"; lit "</html>"].
Proof.
  destruct (head_lines_eq t) as (x & Hx & ->).
  unfold template. rewrite Hx.
  replace doc_tail with (LF :: lit "</body>" ++ LF :: lit "</html>") by (vm_compute; reflexivity).
  replace (doc_head ++ t ++ (x ++ LF :: lit "<body>" ++ [LF]) ++ body
             ++ LF :: lit "</body>" ++ LF :: lit "</html>")
    with ((doc_head ++ t ++ x) ++ LF :: (lit "<body>" ++ LF :: (body ++ LF :: lit "</body>" ++ LF :: lit "</html>"))).
  2:{ rewrite <- !app_assoc. cbn [app]. rewrite <- !app_assoc. reflexivity. }
  rewrite !split_app_sep.
  change (split LF (lit "<body>")) with [lit "<body>"].
  replace (split LF (lit "</body>" ++ LF :: lit "</html>")) with [lit "</body>"; lit "</html>"]
    by (vm_compute; reflexivity).
  rewrite <- !app_assoc. reflexivity.
Qed.

(** C1. For every markdown text [m] and title [t], the lines of the returned
    document are the lines of the template down to [<body>], then exactly
    one block for each line of [m] (split on line feed), in the order of the
    lines, then [</body>] and [</html>]; the block of a line is the tag of
    the kind of that line, escaped, around its text. Seen from the loop:
    the document is the template around the line-feed join of
    [formatted_lines m]; that list has one block per line of [m], block [i]
    made from line [i]; and splitting the body on line feed gives the
    blocks back. *)
Theorem C1_one_block_per_line (m t : str) :
  let block l := render (classify (html_escape l)) (html_escape l) in
  (exists head, head_lines t = head ++ [lit "<body>"]) /\
  split LF (markdown_to_html m t)
  = head_lines t ++ map block (split LF m) ++ [lit "</body>"; lit "</html>"] /\
  markdown_to_html m t = template t (join [LF] (formatted_lines m)) /\
  length (formatted_lines m) = length (split LF m) /\
  (forall i, nth_error (formatted_lines m) i
             = option_map (fun l => format_line (html_escape l)) (nth_error (split LF m) i)) /\
  split LF (join [LF] (formatted_lines m)) = formatted_lines m.
Proof.
  cbv zeta.
  assert (S : split LF (join [LF] (formatted_lines m)) = formatted_lines m).
  { apply split_join; [apply formatted_lines_nonempty|].
    rewrite formatted_lines_map. apply List.Forall_forall. intros b Hb.
    apply in_map_iff in Hb as (l & <- & Hl). apply format_line_no_LF.
    apply (split_no_sep LF (html_escape m)).
    rewrite split_html_escape. apply in_map, Hl. }
  split; [|split; [|split; [reflexivity|split; [|split; [|exact S]]]]].
  - destruct (head_lines_eq t) as (x & _ & ->). eexists. reflexivity.
  - unfold markdown_to_html. cbv zeta. rewrite split_document, S, formatted_lines_map.
    do 2 f_equal. apply map_ext. intros l. apply format_line_render.
  - rewrite formatted_lines_map. apply length_map.
  - intros i. rewrite formatted_lines_map. apply nth_error_map.
Qed.

(** C8. The body is the line-feed join of [format_line] mapped over the
    escaped lines; every line is of exactly one of the seven kinds, and its
    block is the tag of that kind; and a line that is the same, after
    escaping, at the same position of two inputs gives the same block
    there. *)
Theorem C8_per_line_classification :
  (forall m t,
     markdown_to_html m t
     = template t (join [LF] (map format_line (split LF (html_escape m))))) /\
  (forall line, exists k,
     matches k line = true /\ (forall k', matches k' line = true -> k' = k) /\
     format_line line = render k line) /\
  (forall m1 m2 i l,
     nth_error (split LF (html_escape m1)) i = Some l ->
     nth_error (split LF (html_escape m2)) i = Some l ->
     nth_error (formatted_lines m1) i = Some (format_line l) /\
     nth_error (formatted_lines m2) i = Some (format_line l)).
Proof.
  split; [|split].
  - intros m t. unfold markdown_to_html, formatted_lines. cbv zeta.
    rewrite format_loop_map. reflexivity.
  - intros line. exists (classify line). split; [apply matches_classify; reflexivity|].
    split; [intros k' Hk'; apply matches_classify, Hk' | apply format_line_render].
  - intros m1 m2 i l H1 H2. unfold formatted_lines. cbv zeta.
    rewrite !format_loop_map, !nth_error_map, H1, H2. split; reflexivity.
Qed.

Lemma C8_per_line_classification_witness :
  let m1 := lit "# a" ++ [LF] ++ lit "x<y" in
  let m2 := lit "---" ++ [LF] ++ lit "x<y" ++ [LF] in
  nth_error (split LF (html_escape m1)) 1 = Some (lit "x&lt;y") /\
  nth_error (split LF (html_escape m2)) 1 = Some (lit "x&lt;y") /\
  nth_error (formatted_lines m1) 1 = Some (format_line (lit "x&lt;y")) /\
  nth_error (formatted_lines m2) 1 = Some (format_line (lit "x&lt;y")).
Proof.
  cbv zeta. split; [reflexivity|]. split; [reflexivity|].
  destruct C8_per_line_classification as (_ & _ & H).
  apply (H (lit "# a" ++ [LF] ++ lit "x<y") (lit "---" ++ [LF] ++ lit "x<y" ++ [LF])
           1%nat (lit "x&lt;y")); reflexivity.
Defined.

(** ** The handlers *)

(** *** Texts that latin-1 can hold *)

Section Latin1.

Variable E : env.

Implicit Types (a b text : str) (tr : list event).

Lemma latin1_app a b : latin1 (a ++ b) = latin1 a && latin1 b.
Proof. apply forallb_app. Qed.

Lemma latin1_lit (s : string) : latin1 (lit s) = true.
Proof.
  unfold latin1, lit. apply forallb_forall. intros c Hc.
  apply in_map_iff in Hc as (x & <- & _). apply N.ltb_lt, N_ascii_bounded.
Qed.

Lemma latin1_dq : latin1 dq = true.
Proof. reflexivity. Qed.

Lemma latin1_firstn n a : latin1 a = true -> latin1 (firstn n a) = true.
Proof.
  intros H. rewrite <- (firstn_skipn n a), latin1_app in H.
  apply andb_true_iff in H. apply H.
Qed.

Lemma latin1_status_line code text : latin1 (status_line E code text) = latin1 text.
Proof.
  unfold status_line. rewrite !latin1_app, !latin1_lit, str_of_int_latin1.
  cbn [andb]. change (latin1 CRLF) with true. apply andb_true_r.
Qed.

Lemma latin1_header_line a b : latin1 (header_line a b) = latin1 a && latin1 b.
Proof.
  unfold header_line. rewrite !latin1_app, latin1_lit. cbn [andb].
  change (latin1 CRLF) with true. rewrite andb_true_r. reflexivity.
Qed.

(** A message latin-1 can hold is sent; any other raises, and nothing has
    been sent. *)
Lemma send_error_sent code text tr :
  latin1 text = true ->
  send_error E code (Some text) tr = (Ok tt, tr ++ [SendError code (Some text)]).
Proof. intros H. unfold send_error. rewrite latin1_status_line, H. reflexivity. Qed.


Lemma send_header_sent a b tr :
  latin1 a = true -> latin1 b = true ->
  send_header E a b tr = (Ok tt, tr ++ [SendHeader a b]).
Proof. intros Ha Hb. unfold send_header. rewrite latin1_header_line, Ha, Hb. reflexivity. Qed.


Lemma attribute_error_get v : latin1 (attribute_error E v (lit "get")) = true.
Proof. apply attribute_error_latin1. reflexivity. Qed.

Lemma attribute_error_encode v : latin1 (attribute_error E v (lit "encode")) = true.
Proof. apply attribute_error_latin1. reflexivity. Qed.

Lemma latin1_hash (b : list N) : latin1 (firstn 8 (md5_hexdigest E b)) = true.
Proof. apply latin1_firstn, md5_hexdigest_latin1. Qed.

End Latin1.

(** *** [markdown_to_html] on texts *)

Section Method.

Variable E : env.

Implicit Types (l m t : str) (tr : list event).

Lemma format_step_text (acc : list pyval) l tr :
  format_step E acc (PStr l) tr = (Ok (acc ++ [PStr (format_line l)]), tr).
Proof.
  unfold format_step, format_line, py_startswith, py_slice_from, py_strip, bind, ret.
  cbn [py_eq_str py_truthy fmt].
  destruct (startswith (lit "#### ") l); [reflexivity|].
  destruct (startswith (lit "### ") l); [reflexivity|].
  destruct (startswith (lit "## ") l); [reflexivity|].
  destruct (startswith (lit "# ") l); [reflexivity|].
  destruct (str_eqb (strip l) (lit "---")); [reflexivity|].
  destruct (truthy (strip l)); reflexivity.
Qed.

Lemma for_each_texts (ls : list str) (acc : list pyval) tr :
  for_each (map PStr ls) (format_step E) acc tr
  = (Ok (acc ++ map (fun l => PStr (format_line l)) ls), tr).
Proof.
  revert acc. induction ls as [|l ls IH]; intros acc; cbn [map for_each].
  - unfold ret. rewrite app_nil_r. reflexivity.
  - unfold bind. rewrite format_step_text, IH, <- app_assoc. reflexivity.
Qed.

Lemma strings_of_texts (ls : list str) tr :
  strings_of E (map PStr ls) tr = (Ok ls, tr).
Proof.
  induction ls as [|l ls IH]; cbn [map strings_of]; [reflexivity|].
  unfold bind. rewrite IH. reflexivity.
Qed.

(** On a text and a title that is a text, the method returns, adds no
    event, and its value is [markdown_to_html]. *)
Lemma markdown_to_html_method_text m t tr :
  markdown_to_html_method E (PStr m) (PStr t) tr = (Ok (markdown_to_html m t), tr).
Proof.
  unfold markdown_to_html_method, py_replace, py_split, py_join, bind, ret. cbn [fmt].
  change (@nil pyval) with (@nil pyval ++ []) at 1.
  rewrite for_each_texts. cbn [app]. rewrite <- map_map, strings_of_texts.
  unfold markdown_to_html, formatted_lines, template, html_escape. cbv zeta.
  rewrite format_loop_map. reflexivity.
Qed.

End Method.

Section Guard.

Variable E : env.

Implicit Types (d : gmap (list N) pyval) (tr : list event) (v : pyval).

Lemma no_markdown_sent tr :
  send_error E 400 (Some no_markdown) tr
  = (Ok tt, tr ++ [SendError 400 (Some (lit "No markdown content provided"))]).
Proof. apply send_error_sent. reflexivity. Qed.

(** A [markdown] value that counts as false stops each handler at the guard. *)
Lemma v2_guard d tr :
  py_truthy (default (PStr []) (d !! lit "markdown")) = false ->
  ExportApiV2.do_POST E {| path := lit "/api/convert"; body := Parsed (PDict d) |} tr
  = (Ok tt, tr ++ [SendError 400 (Some (lit "No markdown content provided"))]).
Proof.
  intros H. unfold ExportApiV2.do_POST. cbn [path body].
  change (str_eqb (lit "/api/convert") (lit "/api/convert")) with true. cbv iota.
  unfold try_except, bind, data_get, ret. rewrite H. cbn [negb].
  rewrite no_markdown_sent. reflexivity.
Qed.

Lemma v1_guard d tr :
  py_truthy (default (PStr []) (d !! lit "markdown")) = false ->
  ExportApi.do_POST E {| path := lit "/api/convert"; body := Parsed (PDict d) |} tr
  = (Ok tt, tr ++ [SendError 400 (Some (lit "No markdown content provided"))]).
Proof.
  intros H. unfold ExportApi.do_POST. cbn [path body].
  change (str_eqb (lit "/api/convert") (lit "/api/convert")) with true. cbv iota.
  unfold try_except, bind, data_get, ret. rewrite H. cbn [negb].
  rewrite no_markdown_sent. reflexivity.
Qed.

Lemma download_guard d tr :
  py_truthy (default (PStr []) (d !! lit "markdown")) = false ->
  DownloadServer.do_POST E {| path := lit "/convert"; body := Parsed (PDict d) |} tr
  = (Ok tt, tr ++ [SendError 400 (Some (lit "No markdown content provided"))]).
Proof.
  intros H. unfold DownloadServer.do_POST. cbn [path body].
  change (str_eqb (lit "/convert") (lit "/convert")) with true. cbv iota.
  unfold bind, data_get, ret. rewrite H. cbn [negb].
  apply no_markdown_sent.
Qed.

End Guard.

(** C6. Python runs [markdown_to_html] step by step on whatever it is
    given, and a step on a value without the method raises. On a markdown
    text [m] and a title text [t] no step raises: in every environment and
    after any events the call returns, adds no event, and returns the same
    text, which is the template around the blocks of the lines of [m] and
    holds nothing but what [m] and [t] determine. *)
Theorem C6_render_total_and_pure (E1 E2 : env) (m t : str) (tr1 tr2 : list event) :
  let block l := render (classify (html_escape l)) (html_escape l) in
  let document := doc_head ++ t ++ doc_mid ++ join [LF] (map block (split LF m)) ++ doc_tail in
  markdown_to_html_method E1 (PStr m) (PStr t) tr1 = (Ok document, tr1) /\
  markdown_to_html_method E2 (PStr m) (PStr t) tr2 = (Ok document, tr2) /\
  markdown_to_html m t = document.
Proof.
  cbv zeta. rewrite !markdown_to_html_method_text.
  assert (H : markdown_to_html m t
              = doc_head ++ t ++ doc_mid
                ++ join [LF] (map (fun l => render (classify (html_escape l)) (html_escape l))
                                (split LF m)) ++ doc_tail).
  { unfold markdown_to_html, template. cbv zeta. rewrite formatted_lines_map.
    do 3 f_equal. f_equal. f_equal. apply map_ext. intros l. apply format_line_render. }
  rewrite <- H. repeat split.
Qed.

(** The limit of C6: a markdown value that is not a text has no [replace],
    and the call raises at its first step. *)
Example markdown_to_html_of_a_number :
  markdown_to_html_method quiet_env (PInt 5) (PStr (lit "T")) []
  = (Raise (lit "object has no attribute replace"), []).
Proof. reflexivity. Qed.

(** C9. For a request on the conversion path whose parsed body is an object
    with no [markdown] field, or with the empty string there, each of the
    three handlers sends error 400 with the message [No markdown content
    provided] and returns; that is the only thing it does: no file is
    written, no script run, no backend called, nothing else sent. *)
Theorem C9_missing_markdown_rejected
    (E : env) (d : gmap (list N) pyval) (tr : list event) :
  d !! lit "markdown" = None \/ d !! lit "markdown" = Some (PStr []) ->
  let answer := (Ok tt, tr ++ [SendError 400 (Some (lit "No markdown content provided"))]) in
  ExportApiV2.do_POST E {| path := lit "/api/convert"; body := Parsed (PDict d) |} tr = answer /\
  ExportApi.do_POST E {| path := lit "/api/convert"; body := Parsed (PDict d) |} tr = answer /\
  DownloadServer.do_POST E {| path := lit "/convert"; body := Parsed (PDict d) |} tr = answer.
Proof.
  intros H. cbv zeta.
  assert (F : py_truthy (default (PStr []) (d !! lit "markdown")) = false)
    by (destruct H as [-> | ->]; reflexivity).
  split; [|split].
  - apply v2_guard, F.
  - apply v1_guard, F.
  - apply download_guard, F.
Qed.

Lemma C9_missing_markdown_rejected_witness :
  let d : gmap (list N) pyval := <[lit "format" := PStr (lit "docx")]> ∅ in
  let answer := (Ok tt, [SendError 400 (Some (lit "No markdown content provided"))]) in
  (d !! lit "markdown" = None \/ d !! lit "markdown" = Some (PStr [])) /\
  ExportApiV2.do_POST quiet_env {| path := lit "/api/convert"; body := Parsed (PDict d) |} []
  = answer /\
  ExportApi.do_POST quiet_env {| path := lit "/api/convert"; body := Parsed (PDict d) |} []
  = answer /\
  DownloadServer.do_POST quiet_env {| path := lit "/convert"; body := Parsed (PDict d) |} []
  = answer.
Proof.
  cbv zeta. split; [left; vm_compute; reflexivity|].
  apply (C9_missing_markdown_rejected quiet_env (<[lit "format" := PStr (lit "docx")]> ∅) []).
  left. vm_compute. reflexivity.
Defined.

(** With markdown in the body the handlers do go on to convert. *)
Example v2_converts_pdf :
  let d : gmap (list N) pyval := <[lit "markdown" := PStr (lit "# Hi")]> ∅ in
  exists url ct data rest,
    snd (ExportApiV2.do_POST quiet_env
           {| path := lit "/api/convert"; body := Parsed (PDict d) |} [])
    = Urlopen url ct data :: SendResponse 200 :: rest /\
    contains (lit "<h1>Hi</h1>") data = true.
Proof. cbv zeta. vm_compute. do 4 eexists. split; reflexivity. Qed.

Example v1_runs_script :
  let d : gmap (list N) pyval := <[lit "markdown" := PStr (lit "# Hi")]> ∅ in
  exists name rest,
    snd (ExportApi.do_POST quiet_env
           {| path := lit "/api/convert"; body := Parsed (PDict d) |} [])
    = FileWrite name (PStr (lit "# Hi"))
        :: SubprocessRun (lit "/app/convert-export.sh") name (PStr (lit "pdf")) :: rest.
Proof. cbv zeta. vm_compute. do 2 eexists. reflexivity. Qed.

Example download_runs_script :
  let d : gmap (list N) pyval := <[lit "markdown" := PStr (lit "# Hi")]> ∅ in
  exists rest,
    snd (DownloadServer.do_POST quiet_env
           {| path := lit "/convert"; body := Parsed (PDict d) |} [])
    = FileWrite (lit "/tmp/tmpabc.md") (PStr (lit "# Hi"))
        :: SubprocessRun (lit "/app/convert-export.sh") (lit "/tmp/tmpabc.md") (PStr (lit "pdf"))
        :: FileRead (lit "/tmp/tmpabc.pdf") :: rest.
Proof. cbv zeta. vm_compute. eexists. reflexivity. Qed.

(** * Further properties of the code *)

(** ** More on stripping *)

Section StripMore.

Implicit Types (c x : char) (s a b t core : str).

Lemma lstrip_blank s : forallb isspace s = true -> lstrip s = [].
Proof.
  induction s as [|c s IH]; [reflexivity|]. cbn [forallb lstrip].
  intros H. apply andb_true_iff in H as [-> H]. apply IH, H.
Qed.

Lemma lstrip_hd s c t : lstrip s = c :: t -> isspace c = false.
Proof.
  induction s as [|x s IH]; [discriminate|]. cbn [lstrip].
  destruct (isspace x) eqn:E; [exact IH|]. intros H. injection H as <- _. exact E.
Qed.

Lemma lstrip_nil s : lstrip s = [] -> forallb isspace s = true.
Proof.
  induction s as [|x s IH]; [reflexivity|]. cbn [lstrip forallb].
  destruct (isspace x); [exact IH | discriminate].
Qed.

Lemma lstrip_blank_app a s : forallb isspace a = true -> lstrip (a ++ s) = lstrip s.
Proof.
  induction a as [|c a IH]; [reflexivity|]. cbn [forallb app lstrip].
  intros H. apply andb_true_iff in H as [-> H]. apply IH, H.
Qed.

Lemma rstrip_snoc s c : rstrip (s ++ [c]) = if isspace c then rstrip s else s ++ [c].
Proof.
  unfold rstrip. rewrite rev_app_distr. cbn [rev app lstrip].
  destruct (isspace c); [reflexivity|]. cbn [rev]. rewrite rev_involutive. reflexivity.
Qed.

Lemma rstrip_blank_app s b : forallb isspace b = true -> rstrip (s ++ b) = rstrip s.
Proof.
  induction b as [|c b IH] using rev_ind; [rewrite app_nil_r; reflexivity|].
  rewrite forallb_app. cbn [forallb]. rewrite andb_true_r.
  intros H. apply andb_true_iff in H as [Hb Hc].
  rewrite app_assoc, rstrip_snoc, Hc. apply IH, Hb.
Qed.

Lemma forallb_rev (f : N -> bool) s : forallb f (rev s) = forallb f s.
Proof.
  induction s as [|c s IH]; [reflexivity|]. cbn [rev forallb].
  rewrite forallb_app, IH. cbn [forallb]. rewrite andb_true_r. apply andb_comm.
Qed.

(** Stripping leaves nothing exactly when the text is blank. *)
Lemma strip_nil_iff s : strip s = [] <-> forallb isspace s = true.
Proof.
  split.
  - unfold strip, rstrip. intros H.
    apply (f_equal (@rev N)) in H. rewrite rev_involutive in H. cbn [rev] in H.
    apply lstrip_nil in H. rewrite forallb_rev in H.
    destruct (lstrip s) as [|c t] eqn:E; [apply lstrip_nil, E|].
    apply lstrip_hd in E. cbn [forallb] in H. rewrite E in H. discriminate.
  - intros H. unfold strip. rewrite lstrip_blank by exact H. reflexivity.
Qed.

(** A stripped text does not end with a blank. *)
Lemma strip_last s t c : strip s = t ++ [c] -> isspace c = false.
Proof.
  unfold strip, rstrip. intros H.
  apply (f_equal (@rev N)) in H. rewrite rev_involutive, rev_app_distr in H.
  cbn [rev app] in H. eapply lstrip_hd, H.
Qed.

(** Blanks around a text that neither starts nor ends with one are what
    stripping removes. *)
Lemma strip_pad a x core b :
  forallb isspace a = true -> forallb isspace b = true ->
  isspace x = false -> rstrip (x :: core) = x :: core ->
  strip (a ++ (x :: core) ++ b) = x :: core.
Proof.
  intros Ha Hb Hx Hc. unfold strip. rewrite lstrip_blank_app by exact Ha.
  cbn [app lstrip]. rewrite Hx.
  change (x :: core ++ b) with ((x :: core) ++ b).
  rewrite rstrip_blank_app by exact Hb. exact Hc.
Qed.

(** Without a [#] in front, only the last three branches of the loop body
    are left. *)
Lemma format_line_no_hash line :
  match line with c :: _ => c <> 35 | [] => True end ->
  format_line line
  = if str_eqb (strip line) (lit "---") then lit "<hr>"
    else if truthy (strip line) then lit "<p>" ++ line ++ lit "</p>"
    else lit "<br>".
Proof.
  intros H. unfold format_line.
  assert (F : forall p, startswith (35 :: p) line = false).
  { intros p. destruct line as [|c r]; [reflexivity|]. cbn [startswith].
    replace (35 =? c) with false; [reflexivity|].
    symmetry. apply N.eqb_neq. congruence. }
  change (lit "#### ") with (35 :: lit "### "). rewrite F.
  change (lit "### ") with (35 :: lit "## "). rewrite F.
  change (lit "## ") with (35 :: lit "# "). rewrite F.
  change (lit "# ") with (35 :: lit " "). rewrite F. reflexivity.
Qed.

Lemma blank_not_hash c : isspace c = true -> c <> 35.
Proof. intros H ->. discriminate H. Qed.

End StripMore.

(** ** Rules, breaks and indented lines *)

(** X1. A line that is [---] with any blanks before and after it (spaces,
    tabs, a carriage return left by a CRLF line end) is rendered as
    [<hr>]. *)
Theorem rule_with_blanks_around (a b : str) :
  forallb isspace a = true -> forallb isspace b = true ->
  format_line (a ++ lit "---" ++ b) = lit "<hr>".
Proof.
  intros Ha Hb. rewrite format_line_no_hash.
  - change (lit "---") with (45 :: [45; 45]).
    rewrite strip_pad by (assumption || reflexivity). reflexivity.
  - destruct a as [|c a]; [discriminate|]. cbn [app].
    cbn [forallb] in Ha. apply andb_true_iff in Ha as [Hc _]. apply blank_not_hash, Hc.
Qed.

Lemma rule_with_blanks_around_witness :
  forallb isspace (lit "  ") = true /\ forallb isspace [9; 13] = true /\
  format_line (lit "  " ++ lit "---" ++ [9; 13]) = lit "<hr>".
Proof.
  split; [reflexivity|]. split; [reflexivity|].
  apply (rule_with_blanks_around (lit "  ") [9; 13]); reflexivity.
Defined.

(** X2. A line is rendered as [<br>] exactly when it is blank: empty or made
    of white space only. *)
Theorem break_iff_blank (line : str) :
  format_line line = lit "<br>" <-> forallb isspace line = true.
Proof.
  split.
  - intros H.
    destruct (format_line_cases line)
      as [[_ E] | [[_ E] | [[_ E] | [[_ E] | [[_ E] | [[_ E] | [S _]]]]]]];
      [rewrite E in H; discriminate H .. | apply strip_nil_iff, S].
  - intros H. rewrite format_line_no_hash.
    + apply strip_nil_iff in H. rewrite H. reflexivity.
    + destruct line as [|c r]; [exact I|].
      cbn [forallb] in H. apply andb_true_iff in H as [Hc _]. apply blank_not_hash, Hc.
Qed.

Lemma break_iff_blank_witness :
  forallb isspace [32; 9; 13] = true /\ format_line [32; 9; 13] = lit "<br>".
Proof.
  split; [reflexivity|]. apply (proj2 (break_iff_blank [32; 9; 13])). reflexivity.
Defined.

Lemma indented_paragraph (w c : char) (rest : str) :
  isspace w = true -> In c rest -> isspace c = false -> c <> 45 ->
  format_line (w :: rest) = lit "<p>" ++ (w :: rest) ++ lit "</p>".
Proof.
  intros Hw Hin Hc H45.
  rewrite format_line_no_hash by (apply blank_not_hash, Hw).
  assert (Hs : In c (strip (w :: rest))) by (apply strip_In; [right; exact Hin | exact Hc]).
  destruct (str_eqb (strip (w :: rest)) (lit "---")) eqn:E.
  { apply str_eqb_eq in E. rewrite E in Hs. vm_compute in Hs.
    destruct Hs as [Hs | [Hs | [Hs | []]]]; symmetry in Hs; contradiction. }
  destruct (strip (w :: rest)); [contradiction | reflexivity].
Qed.

(** X3. A line that starts with a blank is never a heading: when it holds a
    character that is neither blank nor [-], it is rendered as a paragraph
    around the whole line, indentation included. So an indented [# Title]
    is a paragraph. *)
Theorem indented_line_is_paragraph (w c : char) (rest : str) :
  isspace w = true -> In c rest -> isspace c = false -> c <> 45 ->
  format_line (w :: rest) = lit "<p>" ++ (w :: rest) ++ lit "</p>".
Proof. apply indented_paragraph. Qed.

Lemma indented_line_is_paragraph_witness :
  isspace 32 = true /\ In 35 (lit " # Title") /\ isspace 35 = false /\ 35 <> 45 /\
  format_line (lit "  # Title") = lit "<p>  # Title</p>".
Proof.
  split; [reflexivity|]. split; [right; left; reflexivity|].
  split; [reflexivity|]. split; [discriminate|].
  apply (indented_line_is_paragraph 32 35 (lit " # Title"));
    [reflexivity | right; left; reflexivity | reflexivity | discriminate].
Defined.

(** ** More on escaping *)

Section EscapeMore.

Implicit Types (c d : char) (s a b l : str).

Lemma entity_of_nonempty c : entity_of c <> [].
Proof.
  destruct (entity_of_cases c) as [[_ ->] | [[_ ->] | [[_ ->] | (_ & _ & _ & ->)]]];
    discriminate.
Qed.

Lemma html_escape_snoc s c : html_escape (s ++ [c]) = html_escape s ++ entity_of c.
Proof. rewrite html_escape_app, html_escape_cons. cbn. rewrite app_nil_r. reflexivity. Qed.

Lemma html_escape_nil_iff s : html_escape s = [] <-> s = [].
Proof.
  split; [|intros ->; reflexivity]. destruct s as [|c s]; [reflexivity|].
  rewrite html_escape_cons. intros H. apply app_eq_nil in H as [H _].
  destruct (entity_of_nonempty c H).
Qed.

Lemma length_entity_of c : (1 <= length (entity_of c))%nat.
Proof.
  destruct (entity_of_cases c) as [[_ ->] | [[_ ->] | [[_ ->] | (_ & _ & _ & ->)]]];
    cbn; lia.
Qed.

(** Escaping never shortens a text. *)
Lemma length_html_escape s : (length s <= length (html_escape s))%nat.
Proof.
  induction s as [|c s IH]; [reflexivity|].
  rewrite html_escape_cons, length_app. pose proof (length_entity_of c). cbn [length]. lia.
Qed.

Lemma html_escape_plain s : forallb plain s = true -> html_escape s = s.
Proof.
  induction s as [|c s IH]; [reflexivity|]. cbn [forallb].
  intros H. apply andb_true_iff in H as [Hc Hs]. apply plain_spec in Hc as (H1 & H2 & H3).
  rewrite html_escape_cons, entity_of_plain, IH by assumption. reflexivity.
Qed.

Lemma blank_is_plain c : isspace c = true -> entity_of c = [c].
Proof.
  intros H. apply entity_of_plain; intros ->; discriminate H.
Qed.

Lemma lstrip_html_escape s : lstrip (html_escape s) = html_escape (lstrip s).
Proof.
  induction s as [|c s IH]; [reflexivity|]. rewrite html_escape_cons. cbn [lstrip].
  destruct (isspace c) eqn:E.
  - rewrite blank_is_plain by exact E. cbn [app lstrip]. rewrite E. exact IH.
  - rewrite html_escape_cons.
    destruct (entity_of_cases c) as [[_ ->] | [[_ ->] | [[_ ->] | (_ & _ & _ & ->)]]];
      try reflexivity.
    cbn [app lstrip]. rewrite E. reflexivity.
Qed.

Lemma rstrip_html_escape s : rstrip (html_escape s) = html_escape (rstrip s).
Proof.
  induction s as [|c s IH] using rev_ind; [reflexivity|].
  rewrite html_escape_snoc, rstrip_snoc. destruct (isspace c) eqn:E.
  - rewrite blank_is_plain by exact E. rewrite rstrip_snoc, E. exact IH.
  - rewrite html_escape_snoc.
    destruct (entity_of_cases c) as [[_ ->] | [[_ ->] | [[_ ->] | (_ & _ & _ & ->)]]].
    + change (lit "&amp;") with (lit "&amp" ++ [59]).
      rewrite app_assoc, rstrip_snoc. reflexivity.
    + change (lit "&lt;") with (lit "&lt" ++ [59]).
      rewrite app_assoc, rstrip_snoc. reflexivity.
    + change (lit "&gt;") with (lit "&gt" ++ [59]).
      rewrite app_assoc, rstrip_snoc. reflexivity.
    + rewrite rstrip_snoc, E. reflexivity.
Qed.

(** Stripping and escaping can be done in either order. *)
Lemma strip_html_escape s : strip (html_escape s) = html_escape (strip s).
Proof. unfold strip. rewrite lstrip_html_escape, rstrip_html_escape. reflexivity. Qed.

End EscapeMore.

Lemma html_escape_inj (a b : str) :
  html_escape a = html_escape b -> a = b.
Proof.
  revert b. induction a as [|c a IH]; intros b H.
  - symmetry. apply (proj1 (html_escape_nil_iff b)). symmetry. exact H.
  - destruct b as [|d b].
    + apply (proj1 (html_escape_nil_iff (c :: a))) in H. discriminate H.
    + rewrite !html_escape_cons in H.
      destruct (entity_of_cases c) as [[-> Ec] | [[-> Ec] | [[-> Ec] | (C1 & C2 & C3 & Ec)]]];
        destruct (entity_of_cases d) as [[-> Ed] | [[-> Ed] | [[-> Ed] | (D1 & D2 & D3 & Ed)]]];
        rewrite ?Ec, ?Ed in H; try discriminate H;
        try (injection H as H; f_equal; apply IH, H);
        try (injection H as H0 H; vm_compute in H0;
             first [congruence | subst; f_equal; apply IH; exact H]).
Qed.

(** X4. Escaping loses nothing: two texts with the same escaped form are the
    same text. *)
Theorem html_escape_injective (a b : str) :
  html_escape a = html_escape b -> a = b.
Proof. apply html_escape_inj. Qed.

Lemma html_escape_injective_witness :
  html_escape (lit "a<b") = html_escape (lit "a<b") /\ lit "a<b" = lit "a<b".
Proof.
  split; [reflexivity|]. apply (html_escape_injective (lit "a<b") (lit "a<b")). reflexivity.
Defined.

(** X5. Escaping leaves a text as it is exactly when the text holds none of
    [&], [<], [>]; any other text gets longer. *)
Theorem html_escape_fixed_iff_plain (s : str) :
  (html_escape s = s <-> forallb plain s = true) /\
  (length s <= length (html_escape s))%nat /\
  (length (html_escape s) = length s <-> forallb plain s = true).
Proof.
  assert (L : length (html_escape s) = length s -> forallb plain s = true).
  { induction s as [|c s IH]; [reflexivity|].
    rewrite html_escape_cons, length_app. cbn [length forallb]. intros H.
    pose proof (length_html_escape s) as Hs.
    destruct (entity_of_cases c) as [[_ E] | [[_ E] | [[_ E] | (C1 & C2 & C3 & E)]]];
      rewrite E in H; cbn [length lit map list_ascii_of_string] in H; try lia.
    apply andb_true_iff. split; [apply plain_spec; tauto | apply IH; lia]. }
  split; [|split].
  - split; [intros H; apply L; rewrite H; reflexivity | apply html_escape_plain].
  - apply length_html_escape.
  - split; [exact L | intros H; rewrite html_escape_plain by exact H; reflexivity].
Qed.

Lemma html_escape_fixed_iff_plain_witness :
  forallb plain (lit "# plain text") = true /\
  html_escape (lit "# plain text") = lit "# plain text".
Proof.
  split; [reflexivity|].
  destruct (html_escape_fixed_iff_plain (lit "# plain text")) as [[_ H] _].
  apply H. reflexivity.
Defined.

Section ClassifyEscaped.

Implicit Types (l s : str).

Lemma str_eqb_html_escape_rule s :
  str_eqb (html_escape s) (lit "---") = str_eqb s (lit "---").
Proof.
  apply bool_eq_iff. rewrite !str_eqb_eq. split.
  - intros H. apply html_escape_inj. rewrite H. reflexivity.
  - intros ->. reflexivity.
Qed.

Lemma truthy_html_escape s : truthy (html_escape s) = truthy s.
Proof.
  destruct s as [|c s]; [reflexivity|]. rewrite html_escape_cons.
  pose proof (entity_of_nonempty c). destruct (entity_of c); [congruence | reflexivity].
Qed.

Lemma classify_html_escape l : classify (html_escape l) = classify l.
Proof.
  unfold classify.
  rewrite !startswith_html_escape by reflexivity.
  rewrite strip_html_escape, str_eqb_html_escape_rule, truthy_html_escape. reflexivity.
Qed.

Lemma slice_html_escape p l :
  forallb plain p = true -> startswith p l = true ->
  slice_from (length p) (html_escape l) = html_escape (slice_from (length p) l).
Proof.
  intros Hp H. apply startswith_spec in H as [r ->].
  rewrite html_escape_app, html_escape_plain by exact Hp.
  unfold slice_from. rewrite !skipn_app, !skipn_all, Nat.sub_diag. reflexivity.
Qed.

End ClassifyEscaped.

(** X6. Escaping never changes the kind of a line, and the block of a line
    is the tag of its kind around the escaped text of the line's content.
    That text holds neither [<] nor [>]: the only markup of a block is its
    own tag. *)
Theorem block_of_escaped_line (l : str) :
  classify (html_escape l) = classify l /\
  format_line (html_escape l) = tagged (classify l) (html_escape (content (classify l) l)) /\
  mem 60 (html_escape (content (classify l) l)) = false /\
  mem 62 (html_escape (content (classify l) l)) = false.
Proof.
  split; [apply classify_html_escape|].
  split; [|split; [apply html_escape_no_lt | apply html_escape_no_gt]].
  rewrite format_line_render, classify_html_escape.
  pose proof (proj2 (matches_classify l (classify l)) eq_refl) as M.
  destruct (classify l); cbn [render tagged content matches] in *; try reflexivity.
  - rewrite (slice_html_escape (lit "#### ")) by (reflexivity || exact M). reflexivity.
  - rewrite (slice_html_escape (lit "### ")) by (reflexivity || exact M). reflexivity.
  - rewrite (slice_html_escape (lit "## ")) by (reflexivity || exact M). reflexivity.
  - rewrite (slice_html_escape (lit "# ")) by (reflexivity || exact M). reflexivity.
Qed.

(** ** Rendering over a line feed *)

(** X7. Rendering goes line by line, so it goes over a line feed: the
    blocks of two texts put together with a line feed are the blocks of the
    first followed by the blocks of the second, and so for the bodies; a
    line feed at the end of a text adds one [<br>] block. *)
Theorem blocks_of_joined_texts (a b : str) :
  formatted_lines (a ++ LF :: b) = formatted_lines a ++ formatted_lines b /\
  join [LF] (formatted_lines (a ++ LF :: b))
  = join [LF] (formatted_lines a) ++ LF :: join [LF] (formatted_lines b) /\
  formatted_lines (a ++ [LF]) = formatted_lines a ++ [lit "<br>"].
Proof.
  assert (F : forall x y, formatted_lines (x ++ LF :: y) = formatted_lines x ++ formatted_lines y).
  { intros x y. rewrite !formatted_lines_map, split_app_sep, map_app. reflexivity. }
  split; [apply F|]. split; [|apply (F a [])].
  rewrite F. apply (join_app [LF]); apply formatted_lines_nonempty.
Qed.

(** ** [convert_to_docx]: the calls on the document *)

Section Docx.

Implicit Types (c : char) (s l m rest ws : str).

Lemma docx_calls_lines m :
  docx_calls m = docx_title :: flat_map docx_line (split LF m).
Proof. reflexivity. Qed.

Lemma split_single sep s : mem sep s = false -> split sep s = [s].
Proof.
  intros H. apply mem_false in H.
  rewrite <- (app_nil_r s) at 1. rewrite split_app_other by exact H.
  cbn. rewrite app_nil_r. reflexivity.
Qed.

Lemma docx_calls_single l :
  mem LF l = false -> docx_calls l = docx_title :: docx_line l.
Proof.
  intros H. rewrite docx_calls_lines, split_single by exact H.
  cbn [flat_map]. rewrite app_nil_r. reflexivity.
Qed.

Lemma rstrip_nil s : rstrip s = [] -> forallb isspace s = true.
Proof.
  unfold rstrip. intros H. apply (f_equal (@rev N)) in H.
  rewrite rev_involutive in H. cbn [rev] in H.
  apply lstrip_nil in H. rewrite forallb_rev in H. exact H.
Qed.

Lemma rstrip_cons_nonblank c s : rstrip s <> [] -> rstrip (c :: s) = c :: rstrip s.
Proof.
  induction s as [|y s IH] using rev_ind; [intros H; destruct (H eq_refl)|].
  change (c :: s ++ [y]) with ((c :: s) ++ [y]). rewrite !rstrip_snoc.
  destruct (isspace y); [exact IH | reflexivity].
Qed.

(** A stripped line that starts with a heading marker goes on after it. *)
Lemma marker_has_text p s l :
  strip l = (p ++ [32]) ++ s -> s <> [].
Proof.
  intros H ->. rewrite app_nil_r in H. apply strip_last in H. discriminate H.
Qed.

Lemma docx_line_ok l : forallb docx_call_ok (docx_line l) = true.
Proof.
  unfold docx_line. cbv zeta.
  destruct (strip l) as [|c s] eqn:E; [reflexivity|]. cbn [truthy negb].
  rewrite <- E.
  assert (H : forall p, startswith (p ++ [32]) (strip l) = true ->
            truthy (slice_from (length (p ++ [32])) (strip l)) = true).
  { intros p Hp. apply startswith_spec in Hp as [r Hr].
    pose proof (marker_has_text _ _ _ Hr) as Hne. rewrite Hr.
    unfold slice_from. rewrite skipn_app, skipn_all, Nat.sub_diag.
    destruct r; [congruence | reflexivity]. }
  destruct (startswith (lit "# ") (strip l)) eqn:E1.
  { pose proof (H (lit "#") E1) as X. change (truthy (slice_from 2 (strip l)) = true) in X.
    cbn [forallb docx_call_ok]. rewrite X. reflexivity. }
  destruct (startswith (lit "## ") (strip l)) eqn:E2.
  { pose proof (H (lit "##") E2) as X. change (truthy (slice_from 3 (strip l)) = true) in X.
    cbn [forallb docx_call_ok]. rewrite X. reflexivity. }
  destruct (startswith (lit "### ") (strip l)) eqn:E3.
  { pose proof (H (lit "###") E3) as X. change (truthy (slice_from 4 (strip l)) = true) in X.
    cbn [forallb docx_call_ok]. rewrite X. reflexivity. }
  destruct (startswith (lit "---") (strip l)); [reflexivity|].
  cbn [forallb docx_call_ok]. rewrite E. reflexivity.
Qed.

Lemma length_docx_line l :
  length (docx_line l) = if truthy (strip l) then 1%nat else 0%nat.
Proof.
  unfold docx_line. cbv zeta. destruct (truthy (strip l)); [|reflexivity]. cbn [negb].
  repeat match goal with |- context [if ?b then _ else _] => destruct b end; reflexivity.
Qed.

End Docx.

Section DocxRun.

Variable E : env.

Implicit Types (calls : list docx_call) (tr : list event).

(** The calls are made in order up to the first that raises. *)
Lemma docx_run_cases calls tr :
  (List.Forall (fun c => docx_add E c = Ok tt) calls /\
   docx_run E calls tr = (Ok tt, tr ++ map DocxCall calls)) \/
  (exists made call rest e,
     calls = made ++ call :: rest /\
     List.Forall (fun c => docx_add E c = Ok tt) made /\
     docx_add E call = Raise e /\
     docx_run E calls tr = (Raise e, tr ++ map DocxCall made ++ [DocxCall call])).
Proof.
  revert tr. induction calls as [|c calls IH]; intros tr.
  - left. split; [constructor|]. cbn [docx_run map]. unfold ret. rewrite app_nil_r. reflexivity.
  - cbn [docx_run]. unfold bind, emit, lift.
    destruct (docx_add E c) as [[] | e] eqn:Ec.
    + destruct (IH (tr ++ [DocxCall c])) as [[Hall Hrun] | (made & call & rest & e & -> & Hall & He & Hrun)].
      * left. split; [constructor; assumption|].
        rewrite Hrun. cbn [map]. rewrite <- app_assoc. reflexivity.
      * right. exists (c :: made), call, rest, e.
        split; [reflexivity|]. split; [constructor; assumption|]. split; [exact He|].
        rewrite Hrun. cbn [map]. rewrite <- !app_assoc. reflexivity.
    + right. exists [], c, calls, e.
      split; [reflexivity|]. split; [constructor|]. split; [exact Ec|]. reflexivity.
Qed.

Lemma filter_response_docx calls : List.filter is_response (map DocxCall calls) = [].
Proof. induction calls as [|c calls IH]; [reflexivity | exact IH]. Qed.

(** What the handlers need to know of [convert_to_docx]: it answers
    nothing itself, and what it raises is a text latin-1 holds. *)
Lemma convert_to_docx_trace (m : str) tr :
  exists evs,
    snd (convert_to_docx E m tr) = tr ++ evs /\ List.filter is_response evs = [].
Proof.
  unfold convert_to_docx. destruct (docx_installed E).
  - unfold bind, emit, lift.
    destruct (docx_run_cases (docx_calls m) tr)
      as [[_ ->] | (made & call & rest & e & _ & _ & _ & ->)].
    + exists (map DocxCall (docx_calls m) ++ [DocxSave]). cbn [snd].
      split; [rewrite <- app_assoc; reflexivity|].
      rewrite List.filter_app, filter_response_docx. reflexivity.
    + exists (map DocxCall made ++ [DocxCall call]). cbn [snd].
      split; [reflexivity|]. rewrite List.filter_app, filter_response_docx. reflexivity.
  - exists []. unfold raise. cbn [snd]. rewrite app_nil_r. split; reflexivity.
Qed.

Lemma convert_to_docx_latin1 (m : str) tr e :
  fst (convert_to_docx E m tr) = Raise e -> latin1 e = true.
Proof.
  unfold convert_to_docx. destruct (docx_installed E).
  - unfold bind, emit, lift.
    destruct (docx_run_cases (docx_calls m) tr)
      as [[_ ->] | (made & call & rest & e' & _ & _ & He & ->)]; cbn [fst]; intros H.
    + apply (docx_save_error_latin1 E (docx_calls m)). exact H.
    + apply (docx_add_error_latin1 E call). rewrite He. congruence.
  - unfold raise. cbn [fst]. intros H.
    replace e with (lit "python-docx not installed. PDF export only.") by congruence.
    reflexivity.
Qed.

End DocxRun.

(** X8. With the library there, [convert_to_docx] makes the calls of
    [docx_calls m] on the document one after the other. When none raises,
    all of them are made, the document is saved once, after the last, and
    the result is that of the save. When one raises, the calls before it
    have been made, it is the last one made, the document is not saved, and
    what it raised is raised. The calls to make are the title heading
    [Conversation Export] of level 0 and then one call for each line that
    is not blank, none for a blank line; each of those is a heading of
    level 1 to 3 or a paragraph, and its text is never empty. *)
Theorem docx_calls_shape (E : env) (m : str) (tr : list event) :
  docx_installed E = true ->
  (exists calls,
     docx_calls m = AddHeading (lit "Conversation Export") 0 :: calls /\
     length calls = length (List.filter (fun l => truthy (strip l)) (split LF m)) /\
     forallb docx_call_ok calls = true) /\
  ((List.Forall (fun c => docx_add E c = Ok tt) (docx_calls m) /\
    convert_to_docx E m tr
    = (docx_save E (docx_calls m), tr ++ map DocxCall (docx_calls m) ++ [DocxSave])) \/
   (exists made call rest e,
      docx_calls m = made ++ call :: rest /\
      List.Forall (fun c => docx_add E c = Ok tt) made /\
      docx_add E call = Raise e /\
      convert_to_docx E m tr = (Raise e, tr ++ map DocxCall made ++ [DocxCall call]))).
Proof.
  intros Hi. split.
  - exists (flat_map docx_line (split LF m)). split; [apply docx_calls_lines|].
    induction (split LF m) as [|l ls [IH1 IH2]]; [split; reflexivity|].
    cbn [flat_map List.filter].
    rewrite length_app, forallb_app, length_docx_line, docx_line_ok, IH2.
    split; [|reflexivity]. destruct (truthy (strip l)); cbn [length]; lia.
  - unfold convert_to_docx. rewrite Hi. unfold bind, emit, lift.
    destruct (docx_run_cases E (docx_calls m) tr)
      as [[Hall Hrun] | (made & call & rest & e & Hc & Hall & He & Hrun)].
    + left. split; [exact Hall|]. rewrite Hrun, <- app_assoc. reflexivity.
    + right. exists made, call, rest, e. rewrite Hrun. repeat split; assumption.
Qed.

Lemma docx_calls_shape_witness :
  docx_installed quiet_env = true /\
  convert_to_docx quiet_env (lit "# Hi" ++ [LF; LF] ++ lit "text") []
  = (Ok (lit "PK"),
     [DocxCall (AddHeading (lit "Conversation Export") 0);
      DocxCall (AddHeading (lit "Hi") 1);
      DocxCall (AddParagraph (lit "text"));
      DocxSave]).
Proof.
  split; [reflexivity|].
  destruct (docx_calls_shape quiet_env (lit "# Hi" ++ [LF; LF] ++ lit "text") [] eq_refl)
    as [_ [[_ H] | (made & call & rest & e & _ & _ & He & _)]].
  - rewrite H. reflexivity.
  - discriminate He.
Defined.

(** X9. The two converters disagree on an indented heading: for a line that
    is blanks, then [# ], then a text that is not blank, the document gets
    a level-1 heading with the text, while the HTML gets a paragraph around
    the whole line. *)
Theorem indented_heading_docx_vs_html (ws rest : str) :
  ws <> [] -> forallb isspace ws = true -> forallb isspace rest = false ->
  mem LF (ws ++ lit "# " ++ rest) = false ->
  docx_calls (ws ++ lit "# " ++ rest)
  = [AddHeading (lit "Conversation Export") 0; AddHeading (rstrip rest) 1] /\
  format_line (ws ++ lit "# " ++ rest)
  = lit "<p>" ++ (ws ++ lit "# " ++ rest) ++ lit "</p>".
Proof.
  intros Hne Hws Hrest Hlf.
  assert (Hr : rstrip rest <> []).
  { intros H. apply rstrip_nil in H. congruence. }
  assert (S : strip (ws ++ lit "# " ++ rest) = lit "# " ++ rstrip rest).
  { unfold strip. rewrite lstrip_blank_app by exact Hws.
    change (lit "# " ++ rest) with (35 :: 32 :: rest). cbn [lstrip].
    change (isspace 35) with false. cbv iota.
    rewrite rstrip_cons_keep by reflexivity.
    rewrite rstrip_cons_nonblank by exact Hr. reflexivity. }
  split.
  - rewrite docx_calls_single by exact Hlf. unfold docx_line. cbv zeta. rewrite S.
    reflexivity.
  - destruct ws as [|w ws]; [congruence|]. cbn [forallb] in Hws.
    apply andb_true_iff in Hws as [Hw _].
    apply (indented_paragraph w 35); [exact Hw | | reflexivity | discriminate].
    apply in_or_app. right. left. reflexivity.
Qed.

Lemma indented_heading_docx_vs_html_witness :
  lit "  " <> [] /\ forallb isspace (lit "  ") = true /\
  forallb isspace (lit "Title ") = false /\
  mem LF (lit "  " ++ lit "# " ++ lit "Title ") = false /\
  docx_calls (lit "  # Title ")
  = [AddHeading (lit "Conversation Export") 0; AddHeading (lit "Title") 1] /\
  format_line (lit "  # Title ") = lit "<p>  # Title </p>".
Proof.
  split; [discriminate|]. do 3 (split; [reflexivity|]).
  apply (indented_heading_docx_vs_html (lit "  ") (lit "Title "));
    [discriminate | reflexivity..].
Defined.

(** X10. The two converters disagree on the longest marker: for a line
    that starts with [#### ], the document gets a plain paragraph with the
    stripped line, hashes included, because [convert_to_docx] knows three
    heading levels only, while the HTML gets a level-4 heading. *)
Theorem level4_docx_vs_html (rest : str) :
  mem LF rest = false ->
  docx_calls (lit "#### " ++ rest)
  = [AddHeading (lit "Conversation Export") 0; AddParagraph (strip (lit "#### " ++ rest))] /\
  format_line (lit "#### " ++ rest) = lit "<h4>" ++ rest ++ lit "</h4>".
Proof.
  intros Hlf. split; [|reflexivity].
  rewrite docx_calls_single.
  - unfold docx_line. cbv zeta.
    change (lit "#### " ++ rest) with (35 :: 35 :: 35 :: 35 :: 32 :: rest).
    rewrite strip_cons_keep by reflexivity.
    rewrite !rstrip_cons_keep by reflexivity. reflexivity.
  - unfold mem in *. rewrite existsb_app. apply orb_false_iff. split; [reflexivity | exact Hlf].
Qed.

Lemma level4_docx_vs_html_witness :
  mem LF (lit "Deep") = false /\
  docx_calls (lit "#### Deep")
  = [AddHeading (lit "Conversation Export") 0; AddParagraph (lit "#### Deep")] /\
  format_line (lit "#### Deep") = lit "<h4>Deep</h4>".
Proof.
  split; [reflexivity|]. apply (level4_docx_vs_html (lit "Deep")). reflexivity.
Defined.

(** X11. The two converters disagree on rules: a line whose stripped form
    starts with [---] and goes on (four dashes, or dashes and a word) gives
    the document its rule, a paragraph of fifty underscores, because
    [convert_to_docx] tests the start only, while the HTML, which wants
    exactly [---], gets a paragraph around the line. *)
Theorem long_rule_docx_vs_html (l more : str) :
  strip l = lit "---" ++ more -> more <> [] -> mem LF l = false ->
  docx_calls l = [AddHeading (lit "Conversation Export") 0; AddParagraph (repeat 95 50)] /\
  format_line l = lit "<p>" ++ l ++ lit "</p>".
Proof.
  intros S Hmore Hlf. split.
  - rewrite docx_calls_single by exact Hlf. unfold docx_line. cbv zeta. rewrite S.
    reflexivity.
  - rewrite format_line_no_hash.
    + rewrite S. destruct more as [|c more]; [congruence|]. reflexivity.
    + destruct l as [|c r]; [exact I|]. intros ->.
      rewrite strip_cons_keep in S by reflexivity. discriminate S.
Qed.

Lemma long_rule_docx_vs_html_witness :
  strip (lit " ---- ") = lit "---" ++ lit "-" /\ lit "-" <> [] /\
  mem LF (lit " ---- ") = false /\
  docx_calls (lit " ---- ")
  = [AddHeading (lit "Conversation Export") 0; AddParagraph (repeat 95 50)] /\
  format_line (lit " ---- ") = lit "<p> ---- </p>".
Proof.
  split; [reflexivity|]. split; [discriminate|]. split; [reflexivity|].
  apply (long_rule_docx_vs_html (lit " ---- ") (lit "-")); [reflexivity | discriminate | reflexivity].
Defined.

(** ** [convert_to_pdf] *)

(** X12. [convert_to_pdf] raises nothing but messages that start with
    [Gotenberg conversion failed: ]. When the HTML cannot be encoded, or
    the address of the backend is one [urllib] cannot make a request for,
    it raises and nothing goes to the backend. Otherwise exactly one
    request goes to the [/forms/chromium/convert/html] address of the
    backend: a multipart form with one part, the file [index.html] of type
    [text/html] holding the encoded HTML, between the boundary named in the
    content type; and the answer of the backend is what is returned. *)
Theorem convert_to_pdf_outcomes (E : env) (html_content : str) (tr : list event) :
  let url := GOTENBERG_URL E ++ lit "/forms/chromium/convert/html" in
  (forall e, fst (convert_to_pdf E html_content tr) = Raise e ->
     startswith (lit "Gotenberg conversion failed: ") e = true) /\
  (forall e, encode E html_content = Raise e ->
     convert_to_pdf E html_content tr
     = (Raise (lit "Gotenberg conversion failed: " ++ e), tr)) /\
  (forall html_bytes e, encode E html_content = Ok html_bytes ->
     new_request E url = Raise e ->
     convert_to_pdf E html_content tr
     = (Raise (lit "Gotenberg conversion failed: " ++ e), tr)) /\
  (forall html_bytes, encode E html_content = Ok html_bytes ->
     new_request E url = Ok tt ->
     let boundary := lit "----WebKitFormBoundary" ++ firstn 16 (boundary_digest E) in
     let data :=
       (lit "--" ++ boundary) ++ CRLF
       ++ (lit "Content-Disposition: form-data; name=" ++ dq ++ lit "files" ++ dq
             ++ lit "; filename=" ++ dq ++ lit "index.html" ++ dq) ++ CRLF
       ++ lit "Content-Type: text/html" ++ CRLF
       ++ [] ++ CRLF
       ++ html_bytes ++ CRLF
       ++ (lit "--" ++ boundary ++ lit "--") ++ CRLF
       ++ [] in
     snd (convert_to_pdf E html_content tr)
     = tr ++ [Urlopen url (lit "multipart/form-data; boundary=" ++ boundary) data] /\
     fst (convert_to_pdf E html_content tr)
     = match urlopen E url data with
       | Ok response => Ok response
       | Raise e => Raise (lit "Gotenberg conversion failed: " ++ e)
       end).
Proof.
  unfold convert_to_pdf, try_except, bind, lift, emit, raise. cbv zeta.
  split; [|split; [|split]].
  - intros e. destruct (encode E html_content) as [b | e1]; cbn [fst].
    + destruct (new_request E _) as [[] | e3]; cbn [fst].
      * match goal with |- context [urlopen E ?u ?d] => destruct (urlopen E u d) as [r | e2] end;
          cbn [fst]; [discriminate|].
        intros H. replace e with (lit "Gotenberg conversion failed: " ++ e2) by congruence.
        apply startswith_app.
      * intros H. replace e with (lit "Gotenberg conversion failed: " ++ e3) by congruence.
        apply startswith_app.
    + intros H. replace e with (lit "Gotenberg conversion failed: " ++ e1) by congruence.
      apply startswith_app.
  - intros e ->. reflexivity.
  - intros b e -> ->. reflexivity.
  - intros b -> ->. cbn [join]. split; [|].
    + match goal with |- context [urlopen E ?u ?d] => destruct (urlopen E u d) end; reflexivity.
    + match goal with |- context [urlopen E ?u ?d] => destruct (urlopen E u d) end; reflexivity.
Qed.

Lemma convert_to_pdf_outcomes_witness :
  encode quiet_env (lit "<p>x</p>") = Ok (lit "<p>x</p>") /\
  new_request quiet_env (lit "http://gotenberg:3000/forms/chromium/convert/html") = Ok tt /\
  fst (convert_to_pdf quiet_env (lit "<p>x</p>") []) = Ok (lit "%PDF") /\
  fst (convert_to_pdf broken_tools_env (lit "<p>x</p>") [])
  = Raise (lit "Gotenberg conversion failed: Connection refused").
Proof.
  split; [reflexivity|]. split; [reflexivity|].
  destruct (convert_to_pdf_outcomes quiet_env (lit "<p>x</p>") []) as (_ & _ & _ & H1).
  destruct (H1 (lit "<p>x</p>") eq_refl eq_refl) as [_ H1'].
  split; [rewrite H1'; reflexivity|].
  destruct (convert_to_pdf_outcomes broken_tools_env (lit "<p>x</p>") []) as (_ & _ & _ & H2).
  destruct (H2 (lit "<p>x</p>") eq_refl eq_refl) as [_ H2']. rewrite H2'. reflexivity.
Defined.

Section PdfFacts.

Variable E : env.

(** What the handlers need to know of [convert_to_pdf]: it answers nothing
    itself, and what it raises is a text latin-1 holds. *)
Lemma convert_to_pdf_trace (h : str) (tr : list event) :
  exists evs,
    snd (convert_to_pdf E h tr) = tr ++ evs /\ List.filter is_response evs = [].
Proof.
  unfold convert_to_pdf, try_except, bind, lift, emit, raise. cbv zeta.
  destruct (encode E h) as [b | e1]; [|exists []; cbn [snd]; rewrite app_nil_r; split; reflexivity].
  destruct (new_request E _) as [[] | e3];
    [|exists []; cbn [snd]; rewrite app_nil_r; split; reflexivity].
  match goal with |- context [urlopen E ?u ?d] => destruct (urlopen E u d) end;
    eexists; cbn [snd]; split; reflexivity.
Qed.

Lemma convert_to_pdf_latin1 (h : str) (tr : list event) e :
  fst (convert_to_pdf E h tr) = Raise e -> latin1 e = true.
Proof.
  assert (U : latin1 (GOTENBERG_URL E ++ lit "/forms/chromium/convert/html") = true)
    by (rewrite latin1_app, latin1_lit, GOTENBERG_URL_latin1; reflexivity).
  unfold convert_to_pdf, try_except, bind, lift, emit, raise. cbv zeta.
  destruct (encode E h) as [b | e1] eqn:E1; cbn [fst].
  - destruct (new_request E _) as [[] | e3] eqn:E3; cbn [fst].
    + match goal with |- context [urlopen E ?u ?d] => destruct (urlopen E u d) as [r | e2] eqn:E2 end;
        cbn [fst]; [discriminate|].
      intros H. replace e with (lit "Gotenberg conversion failed: " ++ e2) by congruence.
      rewrite latin1_app, latin1_lit. apply (urlopen_error_latin1 E _ _ _ U E2).
    + intros H. replace e with (lit "Gotenberg conversion failed: " ++ e3) by congruence.
      rewrite latin1_app, latin1_lit. apply (new_request_error_latin1 E _ _ U E3).
  - intros H. replace e with (lit "Gotenberg conversion failed: " ++ e1) by congruence.
    rewrite latin1_app, latin1_lit. apply (encode_error_latin1 E _ _ E1).
Qed.

End PdfFacts.

(** ** The handlers on requests they refuse *)

Ltac unfold_handlers :=
  unfold ExportApiV2.do_POST, ExportApi.do_POST, DownloadServer.do_POST,
    send_file, hash_id_of, data_get, print, send_error, send_response, send_header,
    end_headers, wfile_write, try_except, bind, ret, raise, emit, lift.

Lemma str_eqb_neq (a b : str) : a <> b -> str_eqb a b = false.
Proof.
  intros H. destruct (str_eqb a b) eqn:E; [|reflexivity].
  apply str_eqb_eq in E. contradiction.
Qed.

(** X13. A POST to any other path than the conversion path is answered with
    error 404 and nothing else, in all three servers; the body is not even
    read, so this holds for a body that cannot be read too. *)
Theorem post_elsewhere_is_404 (E : env) (req : request) (tr : list event) :
  (path req <> lit "/api/convert" ->
     ExportApiV2.do_POST E req tr = (Ok tt, tr ++ [SendError 404 None]) /\
     ExportApi.do_POST E req tr = (Ok tt, tr ++ [SendError 404 None])) /\
  (path req <> lit "/convert" ->
     DownloadServer.do_POST E req tr = (Ok tt, tr ++ [SendError 404 None])).
Proof.
  split; intros H; apply str_eqb_neq in H; unfold_handlers; rewrite H; [split|]; reflexivity.
Qed.

Lemma post_elsewhere_is_404_witness :
  let req := {| path := lit "/health"; body := Unreadable (lit "no Content-Length") |} in
  path req <> lit "/api/convert" /\ path req <> lit "/convert" /\
  ExportApiV2.do_POST quiet_env req [] = (Ok tt, [SendError 404 None]) /\
  ExportApi.do_POST quiet_env req [] = (Ok tt, [SendError 404 None]) /\
  DownloadServer.do_POST quiet_env req [] = (Ok tt, [SendError 404 None]).
Proof.
  cbv zeta. split; [discriminate|]. split; [discriminate|].
  destruct (post_elsewhere_is_404 quiet_env
              {| path := lit "/health"; body := Unreadable (lit "no Content-Length") |} [])
    as [H1 H2].
  destruct H1 as [H1a H1b]; [discriminate|].
  split; [exact H1a|]. split; [exact H1b|]. apply H2. discriminate.
Defined.

(** X14. Not only the empty string: every [markdown] value that Python
    counts as false (JSON [null], [false], [0], [0.0], an empty array, an
    empty object) gets the same error 400 from all three servers, and
    nothing else happens. *)
Theorem falsy_markdown_rejected
    (E : env) (d : gmap (list N) pyval) (v : pyval) (tr : list event) :
  d !! lit "markdown" = Some v -> py_truthy v = false ->
  let answer := (Ok tt, tr ++ [SendError 400 (Some (lit "No markdown content provided"))]) in
  ExportApiV2.do_POST E {| path := lit "/api/convert"; body := Parsed (PDict d) |} tr = answer /\
  ExportApi.do_POST E {| path := lit "/api/convert"; body := Parsed (PDict d) |} tr = answer /\
  DownloadServer.do_POST E {| path := lit "/convert"; body := Parsed (PDict d) |} tr = answer.
Proof.
  intros Hd Hv. cbv zeta.
  assert (F : py_truthy (default (PStr []) (d !! lit "markdown")) = false)
    by (rewrite Hd; exact Hv).
  split; [|split]; [apply v2_guard | apply v1_guard | apply download_guard]; exact F.
Qed.

Lemma falsy_markdown_rejected_witness :
  let d : gmap (list N) pyval := <[lit "markdown" := PList []]> ∅ in
  let answer := (Ok tt, [SendError 400 (Some (lit "No markdown content provided"))]) in
  d !! lit "markdown" = Some (PList []) /\ py_truthy (PList []) = false /\
  ExportApiV2.do_POST quiet_env {| path := lit "/api/convert"; body := Parsed (PDict d) |} []
  = answer /\
  ExportApi.do_POST quiet_env {| path := lit "/api/convert"; body := Parsed (PDict d) |} []
  = answer /\
  DownloadServer.do_POST quiet_env {| path := lit "/convert"; body := Parsed (PDict d) |} []
  = answer.
Proof.
  cbv zeta. split; [vm_compute; reflexivity|]. split; [reflexivity|].
  apply (falsy_markdown_rejected quiet_env (<[lit "markdown" := PList []]> ∅) (PList []) []);
    [vm_compute; reflexivity | reflexivity].
Defined.

(** ** How many responses a request gets *)

Ltac units := repeat match goal with u : unit |- _ => destruct u end.

(** A test for latin-1, reduced to the tests of the parts that are not
    known to pass. *)
Ltac latin1_parts E :=
  rewrite ?(latin1_status_line E), ?latin1_header_line, ?latin1_app, ?latin1_lit, ?latin1_dq,
    ?(str_of_int_latin1 E), ?(codec_error_latin1 E), ?(attribute_error_get E),
    ?(attribute_error_encode E), ?(latin1_hash E);
  repeat match goal with
         | H : latin1 ?e = true |- context [latin1 ?e] => rewrite H
         end;
  rewrite ?andb_true_r; cbn [andb].

(** What an oracle raised, when the environment says it is latin-1. *)
Ltac oracle_facts E :=
  repeat match goal with
         | H : encode E ?s = Raise ?e |- _ =>
             lazymatch goal with
             | _ : latin1 e = true |- _ => fail
             | _ => pose proof (encode_error_latin1 E s e H)
             end
         end.

Lemma py_eq_str_true (v : pyval) (s : str) : py_eq_str v s = true -> v = PStr s.
Proof.
  destruct v; try discriminate. cbn [py_eq_str]. intros H.
  apply str_eqb_eq in H. congruence.
Qed.

(** The format is known once it has been compared with a literal. *)
Ltac known_format :=
  repeat match goal with
         | H : py_eq_str ?f (lit ?s) = true |- _ =>
             apply py_eq_str_true in H; rewrite ?H; cbn [fmt py_eq_str]
         end.

(** One step along the handler: the innermost thing it branches on is a
    converter (its events answer nothing, its message is latin-1), the
    renderer, a test for latin-1, or something to take by cases. *)
Ltac step E :=
  match goal with
  | |- context [match ?x with _ => _ end] =>
      lazymatch x with
      | context [match _ with _ => _ end] => fail
      | convert_to_pdf E ?h ?t =>
          let T := fresh "T" in
          let L := fresh "L" in
          pose proof (convert_to_pdf_trace E h t) as T;
          pose proof (convert_to_pdf_latin1 E h t) as L;
          destruct x as [[? | ?] ?]; cbn [fst snd] in T, L;
          destruct T as (? & -> & ?);
          [clear L | specialize (L _ eq_refl)]
      | convert_to_docx E ?h ?t =>
          let T := fresh "T" in
          let L := fresh "L" in
          pose proof (convert_to_docx_trace E h t) as T;
          pose proof (convert_to_docx_latin1 E h t) as L;
          destruct x as [[? | ?] ?]; cbn [fst snd] in T, L;
          destruct T as (? & -> & ?);
          [clear L | specialize (L _ eq_refl)]
      | markdown_to_html_method E (PStr ?m) (PStr ?t) ?tr =>
          rewrite (markdown_to_html_method_text E m t tr)
      | latin1 ?text =>
          let P := fresh "P" in
          eassert (P : x = _) by (latin1_parts E; reflexivity);
          lazymatch type of P with
          | ?l = ?r =>
              tryif constr_eq l r then (clear P; destruct x eqn:?)
              else (rewrite P; clear P)
          end
      | _ => destruct x eqn:?; oracle_facts E; known_format
      end
  end.

Ltac walk E := repeat (cbv beta iota; step E); cbv beta iota; units.

Ltac count_responses :=
  rewrite ?List.filter_app;
  repeat match goal with
         | H : List.filter is_response ?evs = [] |- _ => rewrite H; clear H
         end;
  reflexivity.

Ltac close_trace :=
  units; rewrite <- ?app_assoc; eexists; split; [reflexivity | count_responses].

(** X15. [export-api-v2.py]: whenever the request can be handled at all
    (another path, or a body that could be read), [do_POST] raises nothing
    and exactly one response goes out: one call of [send_error] or
    [send_response] goes through, and no second. Every failure on the way,
    of the parser, the backend or the document library, ends in the error
    500 of the handler. So does a format that latin-1 cannot hold: the
    [send_error(400, ..)] that names it raises before it has sent
    anything, and the handler answers 500 with the text of that failure.
    The messages that reach [send_error(500, ..)] are those the
    environment takes latin-1 to hold. *)
Theorem v2_answers_exactly_once (E : env) (req : request) (tr : list event) :
  (forall e, body req = Unreadable e -> path req <> lit "/api/convert") ->
  exists evs,
    ExportApiV2.do_POST E req tr = (Ok tt, tr ++ evs) /\
    length (List.filter is_response evs) = 1%nat.
Proof.
  intros H. destruct req as [p b]. cbn [path body] in H.
  unfold_handlers. unfold no_markdown, pdf_type, docx_type.
  cbn [path body]. cbv zeta.
  destruct (str_eqb p (lit "/api/convert")) eqn:Ep; [|close_trace].
  apply str_eqb_eq in Ep. subst p.
  destruct b as [e | e | e raw | data]; [destruct (H e eq_refl eq_refl) | ..];
    walk E; close_trace.
Qed.

Lemma v2_answers_exactly_once_witness :
  let d : gmap (list N) pyval := <[lit "markdown" := PStr (lit "# Hi")]> ∅ in
  let req := {| path := lit "/api/convert"; body := Parsed (PDict d) |} in
  (forall e, body req = Unreadable e -> path req <> lit "/api/convert") /\
  exists evs,
    ExportApiV2.do_POST broken_tools_env req [] = (Ok tt, [] ++ evs) /\
    length (List.filter is_response evs) = 1%nat.
Proof.
  cbv zeta. split; [discriminate|].
  apply (v2_answers_exactly_once broken_tools_env
           {| path := lit "/api/convert";
              body := Parsed (PDict (<[lit "markdown" := PStr (lit "# Hi")]> ∅)) |} []).
  discriminate.
Defined.

Ltac close_events :=
  units; rewrite <- ?app_assoc;
  first [ eexists; eexists; split; [reflexivity|]
        | eexists; exists []; rewrite app_nil_r; split; [reflexivity|] ];
  cbv beta iota.

(** X16. [export-api.py] and the responses of a request. When [do_POST]
    returns, one response has gone out, with one exception: a format that
    latin-1 cannot hold makes the [Content-Disposition] header raise after
    [send_response(200)], and the call [send_error(500, ..)] of the handler
    follows it, with the text of that failure. When [do_POST] raises, so
    for a body that cannot be read, or when the message of the failure
    handled is one latin-1 cannot hold, nothing has gone out. A failure to
    remove the temporary files is swallowed and changes nothing. *)
Theorem v1_responses (E : env) (req : request) (tr : list event) :
  exists r evs,
    ExportApi.do_POST E req tr = (r, tr ++ evs) /\
    match r with
    | Ok _ =>
        length (List.filter is_response evs) = 1%nat \/
        exists line,
          latin1 line = false /\
          List.filter is_response evs
          = [SendResponse 200; SendError 500 (Some (codec_error E line))]
    | Raise _ => List.filter is_response evs = []
    end.
Proof.
  destruct req as [p b].
  unfold_handlers. unfold no_markdown, pdf_type, docx_type.
  cbn [path body]. cbv zeta.
  destruct (str_eqb p (lit "/api/convert")) eqn:Ep; [|close_events; left; count_responses].
  apply str_eqb_eq in Ep. subst p.
  destruct b as [e | e | e raw | data]; walk E; close_events;
    first [ count_responses
          | left; count_responses
          | right; eexists; split; [|count_responses]; latin1_parts E; assumption ].
Qed.

Example v1_answers_twice :
  let d : gmap (list N) pyval :=
    <[lit "markdown" := PStr (lit "# Hi")]> (<[lit "format" := PStr [9731]]> ∅) in
  exists e,
    List.filter is_response
      (snd (ExportApi.do_POST quiet_env
              {| path := lit "/api/convert"; body := Parsed (PDict d) |} []))
    = [SendResponse 200; SendError 500 (Some e)].
Proof. cbv zeta. vm_compute. eexists. reflexivity. Qed.

(** X17. [download-server.py] and the responses of a request. When
    [do_POST] returns, one response has gone out, or two: after
    [send_response(200)], a header that latin-1 cannot hold or a failure to
    remove a temporary file brings the [send_error(500, ..)] of the
    handler. When [do_POST] raises, nothing has gone out, or the 200 alone:
    the body could not be read or parsed or is no object, or the message of
    the failure handled is one latin-1 cannot hold. *)
Theorem download_responses (E : env) (req : request) (tr : list event) :
  exists r evs,
    DownloadServer.do_POST E req tr = (r, tr ++ evs) /\
    match r with
    | Ok _ =>
        length (List.filter is_response evs) = 1%nat \/
        exists e, List.filter is_response evs = [SendResponse 200; SendError 500 (Some e)]
    | Raise _ =>
        List.filter is_response evs = [] \/ List.filter is_response evs = [SendResponse 200]
    end.
Proof.
  destruct req as [p b].
  unfold_handlers. unfold no_markdown, pdf_type, docx_type.
  cbn [path body]. cbv zeta.
  destruct (str_eqb p (lit "/convert")) eqn:Ep; [|close_events; left; count_responses].
  apply str_eqb_eq in Ep. subst p.
  destruct b as [e | e | e raw | data]; walk E; close_events;
    first [ left; count_responses
          | right; count_responses
          | right; eexists; count_responses ].
Qed.

Example download_answers_twice :
  let d : gmap (list N) pyval := <[lit "markdown" := PStr (lit "# Hi")]> ∅ in
  List.filter is_response
    (snd (DownloadServer.do_POST stuck_files_env
            {| path := lit "/convert"; body := Parsed (PDict d) |} []))
  = [SendResponse 200; SendError 500 (Some (lit "Permission denied"))].
Proof. vm_compute. reflexivity. Qed.

(** A failure with a text latin-1 cannot hold: [export-api.py] raises and
    has answered nothing, [download-server.py] raises after the 200. *)
Example v1_raises_unanswered :
  let d : gmap (list N) pyval := <[lit "markdown" := PStr (lit "# Hi")]> ∅ in
  let E := with_files quiet_env (fun _ => Raise foreign_text) (unlink quiet_env) in
  exists e,
    fst (ExportApi.do_POST E {| path := lit "/api/convert"; body := Parsed (PDict d) |} [])
    = Raise e /\
    List.filter is_response
      (snd (ExportApi.do_POST E {| path := lit "/api/convert"; body := Parsed (PDict d) |} []))
    = [].
Proof. cbv zeta. vm_compute. eexists. split; reflexivity. Qed.

Example download_raises_after_200 :
  let d : gmap (list N) pyval := <[lit "markdown" := PStr (lit "# Hi")]> ∅ in
  let E := with_files quiet_env (file_read quiet_env) (fun _ => Raise foreign_text) in
  exists e,
    fst (DownloadServer.do_POST E {| path := lit "/convert"; body := Parsed (PDict d) |} [])
    = Raise e /\
    List.filter is_response
      (snd (DownloadServer.do_POST E {| path := lit "/convert"; body := Parsed (PDict d) |} []))
    = [SendResponse 200].
Proof. cbv zeta. vm_compute. eexists. split; reflexivity. Qed.

(** ** Bodies that are not what the handlers expect *)

(** X18. What the three servers do with a body they cannot read, decode or
    parse. When reading it fails, each [do_POST] raises and answers
    nothing. When decoding or parsing fails, [export-api-v2.py] answers
    error 500, for a JSON error with the text [Invalid JSON: ] before the
    parser's message and two log lines, [export-api.py] answers error 500
    with the message as it is, and [download-server.py] raises and answers
    nothing. *)
Theorem unparsed_body_three_ways
    (E : env) (e : str) (e8 : string) (raw : str) (tr : list event) :
  let v2 b := ExportApiV2.do_POST E {| path := lit "/api/convert"; body := b |} tr in
  let v1 b := ExportApi.do_POST E {| path := lit "/api/convert"; body := b |} tr in
  let dl b := DownloadServer.do_POST E {| path := lit "/convert"; body := b |} tr in
  (v2 (Unreadable e) = (Raise e, tr) /\ v1 (Unreadable e) = (Raise e, tr) /\
   dl (Unreadable e) = (Raise e, tr)) /\
  (v2 (Undecodable e8)
   = (Ok tt, tr ++ [Stdout ([10060] ++ lit " Conversion error: " ++ lit e8);
                    SendError 500 (Some (lit e8))]) /\
   v1 (Undecodable e8) = (Ok tt, tr ++ [SendError 500 (Some (lit e8))]) /\
   dl (Undecodable e8) = (Raise (lit e8), tr)) /\
  (v2 (BadJson e8 raw)
   = (Ok tt, tr ++ [Stdout ([10060] ++ lit " JSON decode error: " ++ lit e8);
                    Stdout (lit "   Raw data: " ++ raw);
                    Stdout ([10060] ++ lit " Conversion error: " ++ lit "Invalid JSON: "
                              ++ lit e8);
                    SendError 500 (Some (lit "Invalid JSON: " ++ lit e8))]) /\
   v1 (BadJson e8 raw) = (Ok tt, tr ++ [SendError 500 (Some (lit e8))]) /\
   dl (BadJson e8 raw) = (Raise (lit e8), tr)).
Proof.
  cbv zeta. unfold_handlers. cbn [path body].
  change (str_eqb (lit "/convert") (lit "/convert")) with true.
  change (str_eqb (lit "/api/convert") (lit "/api/convert")) with true.
  cbv beta iota. rewrite !latin1_status_line, !latin1_app, !latin1_lit. cbn [andb].
  rewrite <- ?app_assoc. repeat split.
Qed.

(** X19. A body that is JSON but not an object (an array, a string, a
    number, [null]) has no [get]: [export-api-v2.py] and [export-api.py]
    answer error 500 with the text of the attribute error, which is ASCII,
    and [download-server.py] raises it and answers nothing. *)
Theorem non_object_body_three_ways (E : env) (data : pyval) (tr : list event) :
  match data with PDict _ => False | _ => True end ->
  let e := attribute_error E data (lit "get") in
  ExportApiV2.do_POST E {| path := lit "/api/convert"; body := Parsed data |} tr
  = (Ok tt, tr ++ [Stdout ([10060] ++ lit " Conversion error: " ++ e);
                   SendError 500 (Some e)]) /\
  ExportApi.do_POST E {| path := lit "/api/convert"; body := Parsed data |} tr
  = (Ok tt, tr ++ [SendError 500 (Some e)]) /\
  DownloadServer.do_POST E {| path := lit "/convert"; body := Parsed data |} tr
  = (Raise e, tr).
Proof.
  intros H. cbv zeta. unfold_handlers. cbn [path body].
  change (str_eqb (lit "/convert") (lit "/convert")) with true.
  change (str_eqb (lit "/api/convert") (lit "/api/convert")) with true.
  destruct data; try contradiction; cbv beta iota;
    rewrite !latin1_status_line, !attribute_error_get; rewrite <- ?app_assoc; repeat split.
Qed.

Lemma non_object_body_three_ways_witness :
  let e := lit "object has no attribute get" in
  ExportApiV2.do_POST quiet_env {| path := lit "/api/convert"; body := Parsed (PList []) |} []
  = (Ok tt, [Stdout ([10060] ++ lit " Conversion error: " ++ e); SendError 500 (Some e)]) /\
  ExportApi.do_POST quiet_env {| path := lit "/api/convert"; body := Parsed (PList []) |} []
  = (Ok tt, [SendError 500 (Some e)]) /\
  DownloadServer.do_POST quiet_env {| path := lit "/convert"; body := Parsed (PList []) |} []
  = (Raise e, []).
Proof.
  cbv zeta. apply (non_object_body_three_ways quiet_env (PList []) []). exact I.
Defined.

(** ** The conversion paths of [export-api-v2.py] *)

Section V2Paths.

Variable E : env.

Implicit Types (d : gmap (list N) pyval) (s : str) (tr : list event).

Ltac unfold_post :=
  unfold ExportApiV2.do_POST, data_get, print, try_except, bind, ret, raise, lift;
  cbn [path body];
  change (str_eqb (lit "/api/convert") (lit "/api/convert")) with true; cbv beta iota zeta.

Lemma truthy_nonempty s : s <> [] -> truthy s = true.
Proof. destruct s; [congruence | reflexivity]. Qed.

(** The file goes out when latin-1 can hold its name. *)
Lemma send_file_sent (filename content_type : str) (file_content : list N) tr :
  latin1 filename = true -> latin1 content_type = true ->
  send_file E filename content_type file_content tr
  = (Ok tt,
     tr ++
     [SendResponse 200;
      SendHeader (lit "Access-Control-Allow-Origin") (lit "*");
      SendHeader (lit "Content-Type") content_type;
      SendHeader (lit "Content-Disposition")
        (lit "attachment; filename=" ++ dq ++ filename ++ dq);
      SendHeader (lit "Content-Length") (str_of_int E (Z.of_nat (length file_content)));
      EndHeaders;
      WfileWrite file_content;
      Stdout ([9989] ++ lit " Converted and sent " ++ filename)]).
Proof.
  intros Hn Hc.
  unfold send_file, send_response, end_headers, wfile_write, print, bind, emit.
  rewrite !send_header_sent;
    rewrite ?latin1_app, ?latin1_lit, ?latin1_dq, ?str_of_int_latin1, ?Hn, ?Hc;
    try reflexivity.
  rewrite <- ?app_assoc. reflexivity.
Qed.


(** X21. With markdown in the body and the format [pdf], or no format at
    all, [export-api-v2.py] hands [markdown_to_html] of the markdown, under
    the title [Conversation Export], to [convert_to_pdf]. If that returns
    the PDF, the answer is 200 with the CORS header, the type
    [application/pdf], the file name [conversation-], time stamp, [-], the
    first eight digits of the hash and [.pdf], the length, and the PDF as
    the body; if it raises, the answer is error 500 with its message (a
    text latin-1 can hold, by what the environment says of the backend). *)
Theorem v2_pdf_path d s (b : list N) tr :
  d !! lit "markdown" = Some (PStr s) -> s <> [] -> encode E s = Ok b ->
  d !! lit "format" = None \/ d !! lit "format" = Some (PStr (lit "pdf")) ->
  let filename :=
    lit "conversation-" ++ str_of_int E (now E) ++ lit "-" ++ firstn 8 (md5_hexdigest E b)
      ++ lit "." ++ lit "pdf" in
  let sent := convert_to_pdf E (markdown_to_html s (lit "Conversation Export")) tr in
  ExportApiV2.do_POST E {| path := lit "/api/convert"; body := Parsed (PDict d) |} tr
  = match fst sent with
    | Ok pdf =>
        (Ok tt,
         snd sent ++
         [SendResponse 200;
          SendHeader (lit "Access-Control-Allow-Origin") (lit "*");
          SendHeader (lit "Content-Type") (lit "application/pdf");
          SendHeader (lit "Content-Disposition")
            (lit "attachment; filename=" ++ dq ++ filename ++ dq);
          SendHeader (lit "Content-Length") (str_of_int E (Z.of_nat (length pdf)));
          EndHeaders;
          WfileWrite pdf;
          Stdout ([9989] ++ lit " Converted and sent " ++ filename)])
    | Raise e =>
        (Ok tt,
         snd sent ++ [Stdout ([10060] ++ lit " Conversion error: " ++ e); SendError 500 (Some e)])
    end.
Proof.
  intros Hm Hs He Hf. cbv zeta. unfold_post.
  rewrite Hm. cbn [default from_option id py_truthy]. rewrite (truthy_nonempty s Hs). cbn [negb].
  rewrite He.
  assert (F : default (PStr (lit "pdf")) (d !! lit "format") = PStr (lit "pdf"))
    by (destruct Hf as [-> | ->]; reflexivity).
  rewrite F. cbn [py_eq_str fmt].
  change (str_eqb (lit "pdf") (lit "pdf")) with true. cbv beta iota.
  rewrite markdown_to_html_method_text.
  pose proof (convert_to_pdf_latin1 E (markdown_to_html s (lit "Conversation Export")) tr) as L.
  destruct (convert_to_pdf E (markdown_to_html s (lit "Conversation Export")) tr)
    as [[pdf | e] tr']; cbn [fst snd] in L |- *.
  - rewrite send_file_sent; [reflexivity | | reflexivity].
    rewrite !latin1_app, !latin1_lit, str_of_int_latin1, latin1_hash. reflexivity.
  - unfold emit. rewrite send_error_sent by (apply L; reflexivity).
    rewrite <- ?app_assoc. reflexivity.
Qed.

(** X22. With markdown in the body and the format [docx],
    [export-api-v2.py] hands the markdown as it came, not escaped, to
    [convert_to_docx]. If that returns the document, the answer is 200
    with the CORS header, the document type, a file name that ends in
    [.docx], the length, and the document as the body; if it raises, the
    answer is error 500 with its message (a text latin-1 can hold, by what
    the environment says of the library). Without the library it raises
    [python-docx not installed. PDF export only.] and touches nothing. *)
Theorem v2_docx_path d s (b : list N) tr :
  d !! lit "markdown" = Some (PStr s) -> s <> [] -> encode E s = Ok b ->
  d !! lit "format" = Some (PStr (lit "docx")) ->
  let filename :=
    lit "conversation-" ++ str_of_int E (now E) ++ lit "-" ++ firstn 8 (md5_hexdigest E b)
      ++ lit "." ++ lit "docx" in
  let missing := lit "python-docx not installed. PDF export only." in
  let sent := convert_to_docx E s tr in
  (docx_installed E = false -> sent = (Raise missing, tr)) /\
  ExportApiV2.do_POST E {| path := lit "/api/convert"; body := Parsed (PDict d) |} tr
  = match fst sent with
    | Ok content =>
        (Ok tt,
         snd sent ++
         [SendResponse 200;
          SendHeader (lit "Access-Control-Allow-Origin") (lit "*");
          SendHeader (lit "Content-Type") docx_type;
          SendHeader (lit "Content-Disposition")
            (lit "attachment; filename=" ++ dq ++ filename ++ dq);
          SendHeader (lit "Content-Length") (str_of_int E (Z.of_nat (length content)));
          EndHeaders;
          WfileWrite content;
          Stdout ([9989] ++ lit " Converted and sent " ++ filename)])
    | Raise e =>
        (Ok tt,
         snd sent ++ [Stdout ([10060] ++ lit " Conversion error: " ++ e); SendError 500 (Some e)])
    end.
Proof.
  intros Hm Hs He Hf. cbv zeta. split.
  { intros Hi. unfold convert_to_docx. rewrite Hi. reflexivity. }
  unfold_post.
  rewrite Hm, Hf. cbn [default from_option id py_truthy]. rewrite (truthy_nonempty s Hs).
  cbn [negb]. rewrite He. cbn [py_eq_str fmt].
  change (str_eqb (lit "docx") (lit "pdf")) with false.
  change (str_eqb (lit "docx") (lit "docx")) with true. cbv beta iota.
  pose proof (convert_to_docx_latin1 E s tr) as L.
  destruct (convert_to_docx E s tr) as [[content | e] tr']; cbn [fst snd] in L |- *.
  - rewrite send_file_sent; [reflexivity | | reflexivity].
    rewrite !latin1_app, !latin1_lit, str_of_int_latin1, latin1_hash. reflexivity.
  - unfold emit. rewrite send_error_sent by (apply L; reflexivity).
    rewrite <- ?app_assoc. reflexivity.
Qed.

End V2Paths.


(** A format latin-1 cannot hold, here a snowman, is answered with 500. *)
Example v2_foreign_format :
  let d : gmap (list N) pyval :=
    <[lit "markdown" := PStr (lit "# Hi")]> (<[lit "format" := PStr [9731]]> ∅) in
  exists text,
    ExportApiV2.do_POST quiet_env {| path := lit "/api/convert"; body := Parsed (PDict d) |} []
    = (Ok tt, [Stdout ([10060] ++ lit " Conversion error: " ++ text);
               SendError 500 (Some text)]).
Proof. cbv zeta. vm_compute. eexists. reflexivity. Qed.

Lemma v2_pdf_path_witness :
  let d : gmap (list N) pyval := <[lit "markdown" := PStr (lit "# Hi")]> ∅ in
  d !! lit "markdown" = Some (PStr (lit "# Hi")) /\ d !! lit "format" = None /\
  fst (ExportApiV2.do_POST broken_tools_env
         {| path := lit "/api/convert"; body := Parsed (PDict d) |} []) = Ok tt /\
  List.filter is_response
    (snd (ExportApiV2.do_POST broken_tools_env
            {| path := lit "/api/convert"; body := Parsed (PDict d) |} []))
  = [SendError 500 (Some (lit "Gotenberg conversion failed: Connection refused"))].
Proof.
  cbv zeta. split; [vm_compute; reflexivity|]. split; [vm_compute; reflexivity|].
  rewrite (v2_pdf_path broken_tools_env (<[lit "markdown" := PStr (lit "# Hi")]> ∅)
             (lit "# Hi") (lit "# Hi") []);
    [split; vm_compute; reflexivity | vm_compute; reflexivity | discriminate | reflexivity
    | left; vm_compute; reflexivity].
Defined.

Lemma v2_docx_path_witness :
  let d : gmap (list N) pyval :=
    <[lit "markdown" := PStr (lit "# Hi")]> (<[lit "format" := PStr (lit "docx")]> ∅) in
  d !! lit "markdown" = Some (PStr (lit "# Hi")) /\
  d !! lit "format" = Some (PStr (lit "docx")) /\
  List.filter (fun ev => is_response ev || is_outside ev)
    (snd (ExportApiV2.do_POST quiet_env
            {| path := lit "/api/convert"; body := Parsed (PDict d) |} []))
  = [DocxCall (AddHeading (lit "Conversation Export") 0);
     DocxCall (AddHeading (lit "Hi") 1);
     DocxSave;
     SendResponse 200].
Proof.
  cbv zeta. split; [vm_compute; reflexivity|]. split; [vm_compute; reflexivity|].
  destruct (v2_docx_path quiet_env
              (<[lit "markdown" := PStr (lit "# Hi")]> (<[lit "format" := PStr (lit "docx")]> ∅))
              (lit "# Hi") (lit "# Hi") []) as [_ H];
    [vm_compute; reflexivity | discriminate | reflexivity | vm_compute; reflexivity |].
  rewrite H. vm_compute. reflexivity.
Defined.

(** ** Failed conversions and odd markdown values *)

Section Failures.

Variable E : env.

Implicit Types (d : gmap (list N) pyval) (s : str) (tr : list event).


(** X24. A [markdown] value that counts as true but is not a string (a
    number, [true], a non-empty array or object): [export-api-v2.py] and
    [export-api.py] answer error 500 with the text of the attribute error
    for [encode] and touch nothing, while [download-server.py] goes on and
    hands the value to the write of the temporary file. *)
Theorem non_string_markdown_three_ways d (v : pyval) tr :
  d !! lit "markdown" = Some v -> py_truthy v = true ->
  match v with PStr _ => False | _ => True end ->
  let e := attribute_error E v (lit "encode") in
  ExportApiV2.do_POST E {| path := lit "/api/convert"; body := Parsed (PDict d) |} tr
  = (Ok tt, tr ++ [Stdout ([10060] ++ lit " Conversion error: " ++ e);
                   SendError 500 (Some e)]) /\
  ExportApi.do_POST E {| path := lit "/api/convert"; body := Parsed (PDict d) |} tr
  = (Ok tt, tr ++ [SendError 500 (Some e)]) /\
  exists evs,
    snd (DownloadServer.do_POST E {| path := lit "/convert"; body := Parsed (PDict d) |} tr)
    = (tr ++ [FileWrite (named_temporary_file E) v]) ++ evs.
Proof.
  intros Hm Hv Hns. cbv zeta. split; [|split].
  - unfold ExportApiV2.do_POST, data_get, print, try_except, bind, ret, raise,
      emit. cbn [path body].
    change (str_eqb (lit "/api/convert") (lit "/api/convert")) with true. cbv beta iota zeta.
    rewrite Hm. cbn [default from_option id]. rewrite Hv. cbn [negb].
    destruct v; try contradiction; cbv beta iota;
      rewrite send_error_sent by apply attribute_error_encode;
      rewrite <- ?app_assoc; reflexivity.
  - unfold ExportApi.do_POST, hash_id_of, data_get, try_except, bind, ret, raise,
      emit. cbn [path body].
    change (str_eqb (lit "/api/convert") (lit "/api/convert")) with true. cbv beta iota zeta.
    rewrite Hm. cbn [default from_option id]. rewrite Hv. cbn [negb].
    destruct v; try contradiction; cbv beta iota;
      rewrite send_error_sent by apply attribute_error_encode; reflexivity.
  - unfold_handlers. cbn [path body]. cbv zeta.
    change (str_eqb (lit "/convert") (lit "/convert")) with true. cbv beta iota.
    rewrite Hm. cbn [default from_option id]. rewrite Hv. cbn [negb]. cbv beta iota.
    walk E; cbn [snd]; rewrite <- ?app_assoc; cbn [app];
      match goal with
      | |- ?t ++ ?x :: ?rest = ?t ++ ?x :: ?evs => unify evs rest; reflexivity
      | _ => eexists; rewrite <- ?app_assoc; cbn [app]; reflexivity
      end.
Qed.

End Failures.


Lemma non_string_markdown_three_ways_witness :
  let d : gmap (list N) pyval := <[lit "markdown" := PInt 5]> ∅ in
  let e := lit "object has no attribute encode" in
  d !! lit "markdown" = Some (PInt 5) /\ py_truthy (PInt 5) = true /\
  ExportApiV2.do_POST quiet_env {| path := lit "/api/convert"; body := Parsed (PDict d) |} []
  = (Ok tt, [Stdout ([10060] ++ lit " Conversion error: " ++ e); SendError 500 (Some e)]) /\
  ExportApi.do_POST quiet_env {| path := lit "/api/convert"; body := Parsed (PDict d) |} []
  = (Ok tt, [SendError 500 (Some e)]).
Proof.
  cbv zeta. split; [vm_compute; reflexivity|]. split; [reflexivity|].
  destruct (non_string_markdown_three_ways quiet_env (<[lit "markdown" := PInt 5]> ∅)
              (PInt 5) []) as (H1 & H2 & _);
    [vm_compute; reflexivity | reflexivity | exact I |].
  split; [exact H1 | exact H2].
Defined.

(** ** [download-server.py]: the name of the output file *)

Section ReplaceSub.

Import DownloadServer.

Implicit Types (old new s stem : str) (fuel : nat).

Lemma replace_fuel_nil fuel old new : old <> [] -> replace_fuel fuel old new [] = [].
Proof.
  intros H. destruct fuel; [reflexivity|]. cbn [replace_fuel].
  destruct old; [congruence | reflexivity].
Qed.

Lemma replace_fuel_absent fuel old new s :
  old <> [] -> contains old s = false -> replace_fuel fuel old new s = s.
Proof.
  intros Ho. revert s. induction fuel as [|fuel IH]; intros s H; [reflexivity|].
  cbn [replace_fuel]. rewrite contains_unfold in H. apply orb_false_iff in H as [H1 H2].
  rewrite H1. destruct s as [|c s]; [reflexivity|]. rewrite IH by exact H2. reflexivity.
Qed.

Lemma replace_fuel_suffix fuel new stem :
  mem 46 stem = false -> (length stem < fuel)%nat ->
  replace_fuel fuel (lit ".md") new (stem ++ lit ".md") = stem ++ new.
Proof.
  revert fuel. induction stem as [|c stem IH]; intros fuel Hm Hf.
  - destruct fuel as [|fuel]; [cbn in Hf; lia|].
    cbn [app replace_fuel]. change (startswith (lit ".md") (lit ".md")) with true. cbv iota.
    change (skipn (length (lit ".md")) (lit ".md")) with (@nil N).
    rewrite replace_fuel_nil by discriminate. apply app_nil_r.
  - destruct fuel as [|fuel]; [cbn in Hf; lia|].
    cbn [mem existsb] in Hm. apply orb_false_iff in Hm as [Hc Hm].
    cbn [app replace_fuel].
    change (lit ".md") with (46 :: lit "md") at 1. cbn [startswith]. rewrite Hc. cbn [andb].
    rewrite IH; [reflexivity | exact Hm | cbn [length] in Hf; lia].
Qed.

End ReplaceSub.

(** X25. The [replace] that names the output file of [download-server.py]
    leaves a name without [.md] as it is, and turns a name that ends in
    [.md], with no other dot in it, into the same name with the new ending
    ([.pdf], [.docx]) in place of [.md]. *)
Theorem output_file_name (new s stem : str) :
  (contains (lit ".md") s = false -> DownloadServer.replace_sub (lit ".md") new s = s) /\
  (mem 46 stem = false ->
   DownloadServer.replace_sub (lit ".md") new (stem ++ lit ".md") = stem ++ new).
Proof.
  unfold DownloadServer.replace_sub. split; intros H.
  - apply replace_fuel_absent; [discriminate | exact H].
  - apply replace_fuel_suffix; [exact H|]. rewrite length_app. cbn [length lit map
      list_ascii_of_string]. lia.
Qed.

Lemma output_file_name_witness :
  contains (lit ".md") (lit "/tmp/tmpabc") = false /\
  DownloadServer.replace_sub (lit ".md") (lit ".pdf") (lit "/tmp/tmpabc") = lit "/tmp/tmpabc" /\
  mem 46 (lit "/tmp/tmpabc") = false /\
  DownloadServer.replace_sub (lit ".md") (lit ".pdf") (lit "/tmp/tmpabc" ++ lit ".md")
  = lit "/tmp/tmpabc" ++ lit ".pdf".
Proof.
  destruct (output_file_name (lit ".pdf") (lit "/tmp/tmpabc") (lit "/tmp/tmpabc")) as [H1 H2].
  split; [reflexivity|]. split; [apply H1; reflexivity|].
  split; [reflexivity|]. apply H2. reflexivity.
Defined.

(** A directory with [.md] in its own name is renamed too: the output file
    is then looked for in the wrong place. *)
Example output_file_name_two_hits :
  DownloadServer.replace_sub (lit ".md") (lit ".pdf") (lit "/srv/notes.md/tmpabc.md")
  = lit "/srv/notes.pdf/tmpabc.pdf".
Proof. vm_compute. reflexivity. Qed.

(** ** Conversions that succeed in the two script servers *)

Section ScriptServers.

Variable E : env.

Implicit Types (d : gmap (list N) pyval) (s : str) (tr : list event).



End ScriptServers.


